(** * capydb: the extended-document codec and the collection facade

    A shallow embedding of [src/capydb/_collection.py]: the recursive
    serializer and deserializer between Python values and the tagged JSON
    wire form, the response classifier [handle_response], and the six
    collection operations built on them.

    Python objects are one untyped universe, [pyval].  The classes that come
    from outside this module (pymongo's [bson], [datetime], and the
    [EmbText] / [EmbImage] placeholders of [_emb_json]) are kept abstract:
    their instances are carried by the types of [ExtTypes], and what the
    module calls on them is the interface [ExtLib]. *)

From Stdlib Require Import ZArith List String Ascii Bool Lia.
From Stdlib Require Import Floats.SpecFloat.
From Stdlib Require Init.Byte.
Import ListNotations.

Local Open Scope string_scope.
Local Open Scope Z_scope.

(* ================================================================== *)
(** * Built-in [bytes.hex] and [bytes.fromhex] *)
(* ================================================================== *)

Module Hex.

Definition bytes := list Byte.byte.

(** Lower-case digit of a value below sixteen, as [bytes.hex] prints it. *)
Definition hex_digit (n : N) : ascii :=
  match n with
  | 0%N => "0" | 1%N => "1" | 2%N => "2" | 3%N => "3"
  | 4%N => "4" | 5%N => "5" | 6%N => "6" | 7%N => "7"
  | 8%N => "8" | 9%N => "9" | 10%N => "a" | 11%N => "b"
  | 12%N => "c" | 13%N => "d" | 14%N => "e" | _ => "f"
  end%char.

Definition byte_hex (b : Byte.byte) : string :=
  let n := Byte.to_N b in
  String (hex_digit (N.div n 16)) (String (hex_digit (N.modulo n 16)) "").

(** [b.hex()] *)
Fixpoint hex (b : bytes) : string :=
  match b with
  | [] => ""
  | x :: rest => byte_hex x ++ hex rest
  end.

(** Value of a hexadecimal digit; both cases are accepted. *)
Definition digit_val (c : ascii) : option N :=
  let n := N_of_ascii c in
  if (48 <=? n)%N && (n <=? 57)%N then Some (n - 48)%N
  else if (97 <=? n)%N && (n <=? 102)%N then Some (n - 87)%N
  else if (65 <=? n)%N && (n <=? 70)%N then Some (n - 55)%N
  else None.

(** ASCII white space, skipped by [bytes.fromhex] between two bytes. *)
Definition is_space (c : ascii) : bool :=
  let n := N_of_ascii c in
  (n =? 32)%N || ((9 <=? n)%N && (n <=? 13)%N).

(** [bytes.fromhex(s)]; [None] stands for the [ValueError] it raises. *)
Fixpoint fromhex (s : string) : option bytes :=
  match s with
  | EmptyString => Some []
  | String c rest =>
      if is_space c then fromhex rest
      else
        match digit_val c, rest with
        | Some hi, String c2 rest2 =>
            match digit_val c2 with
            | Some lo =>
                match Byte.of_N (hi * 16 + lo), fromhex rest2 with
                | Some b, Some bs => Some (b :: bs)
                | _, _ => None
                end
            | None => None
            end
        | _, _ => None
        end
  end.

(** [s.upper()] restricted to what matters for hexadecimal text. *)
Definition upper_char (c : ascii) : ascii :=
  let n := N_of_ascii c in
  if (97 <=? n)%N && (n <=? 122)%N then ascii_of_N (n - 32) else c.

Fixpoint upper (s : string) : string :=
  match s with
  | EmptyString => EmptyString
  | String c rest => String (upper_char c) (upper rest)
  end.

End Hex.

(* ================================================================== *)
(** * Python values *)
(* ================================================================== *)

(** Instances of the classes imported by the module.  [Binary] derives from
    [bytes]; [MinKey] and [MaxKey] have no state and are constructors of
    [pyval] below. *)
Class ExtTypes : Type := {
  ObjectId : Type;
  datetime : Type;
  Decimal128 : Type;
  Binary : Type;
  Regex : Type;
  Code : Type;
  Timestamp : Type;
  EmbText : Type;
  EmbImage : Type
}.

(** A Python object.  A [dict] is its items in insertion order (keys are
    strings and unique, as in a JSON document); a [float] is an IEEE-754
    value; [PObject cls] is an instance of any class the module does not
    know, named by its qualified class name. *)
#[local] Unset Elimination Schemes.
Inductive pyval `{ExtTypes} : Type :=
  | PNone
  | PBool (b : bool)
  | PInt (z : Z)
  | PFloat (f : spec_float)
  | PStr (s : string)
  | PDict (items : list (string * pyval))
  | PList (items : list pyval)
  | PEmbText (e : EmbText)
  | PEmbImage (e : EmbImage)
  | PObjectId (o : ObjectId)
  | PDatetime (d : datetime)
  | PDecimal128 (d : Decimal128)
  | PBinary (b : Binary)
  | PRegex (r : Regex)
  | PCode (c : Code)
  | PTimestamp (t : Timestamp)
  | PMinKey
  | PMaxKey
  | PObject (cls : string).
#[local] Set Elimination Schemes.

(** Exceptions.  The last four are the classes the module defines;
    [JSONDecodeError] derives from [ValueError]; [OtherError] is any other
    exception of a library. *)
Inductive exn `{ExtTypes} : Type :=
  | TypeError (msg : string)
  | ValueError (msg : string)
  | JSONDecodeError
  | KeyError (key : string)
  | AttributeError (msg : string)
  | HTTPError (status : Z)
  | OtherError (name : string)
  | APIClientError (status_code message : pyval)
  | AuthenticationError (status_code message : pyval)
  | ClientRequestError (status_code message : pyval)
  | ServerError (status_code message : pyval).

(** A computation returns a value or raises. *)
Inductive result `{ExtTypes} (A : Type) : Type :=
  | Ok (a : A)
  | Raise (e : exn).

Arguments Ok {_ _} a.
Arguments Raise {_ _} e.

Definition bind `{ExtTypes} {A B : Type} (m : result A) (k : A -> result B)
  : result B :=
  match m with
  | Ok a => k a
  | Raise e => Raise e
  end.

Notation "x <- m ;; k" := (bind m (fun x => k))
  (at level 61, m at next level, right associativity).

(** [try: body except <handled>: handler]. *)
Definition try_except `{ExtTypes} {A : Type} (body : result A)
    (handled : exn -> bool) (handler : exn -> result A) : result A :=
  match body with
  | Ok a => Ok a
  | Raise e => if handled e then handler e else Raise e
  end.

(** A comprehension [[f(x) for x in l]]: left to right, the first exception
    ends it. *)
Definition mapM `{ExtTypes} {A B : Type} (f : A -> result B)
  : list A -> result (list B) :=
  fix go (l : list A) : result (list B) :=
    match l with
    | [] => Ok []
    | x :: rest =>
        match f x with
        | Raise e => Raise e
        | Ok y =>
            match go rest with
            | Raise e => Raise e
            | Ok ys => Ok (y :: ys)
            end
        end
    end.

(** The external classes as the module uses them. *)
Class ExtLib `{ExtTypes} : Type := {
  (** [ObjectId(x)] and [str(v)] *)
  ObjectId_new : pyval -> result ObjectId;
  ObjectId_str : ObjectId -> string;
  (** [datetime.fromisoformat(x)] and [v.isoformat()] *)
  datetime_fromisoformat : pyval -> result datetime;
  datetime_isoformat : datetime -> string;
  (** [Decimal128(x)] and [str(v)] *)
  Decimal128_new : pyval -> result Decimal128;
  Decimal128_str : Decimal128 -> string;
  (** [Binary(b)] on a [bytes] object and the bytes of a [Binary] *)
  Binary_new : Hex.bytes -> Binary;
  Binary_bytes : Binary -> Hex.bytes;
  (** [Regex(pattern, flags)], [v.pattern] and [v.flags] *)
  Regex_new : pyval -> pyval -> result Regex;
  Regex_pattern : Regex -> pyval;
  Regex_flags : Regex -> pyval;
  (** [Code(x)], [str(v)], and whether [Code] derives from [str]
      (in pymongo it does: [class Code(str)]) *)
  Code_new : pyval -> result Code;
  Code_str : Code -> string;
  Code_isinstance_str : bool;
  (** [Timestamp(time, inc)], [v.time] and [v.inc] *)
  Timestamp_new : pyval -> pyval -> result Timestamp;
  Timestamp_time : Timestamp -> Z;
  Timestamp_inc : Timestamp -> Z;
  (** [EmbText.from_json(d)], [v.to_json()] and the same for [EmbImage] *)
  EmbText_from_json : pyval -> result EmbText;
  EmbText_to_json : EmbText -> pyval;
  EmbImage_from_json : pyval -> result EmbImage;
  EmbImage_to_json : EmbImage -> pyval
}.

(* ================================================================== *)
(** * The codec *)
(* ================================================================== *)

Section Codec.
Context {T : ExtTypes} {L : ExtLib}.

Definition dict := list (string * pyval).

(** [key in d] *)
Fixpoint dict_contains (key : string) (d : dict) : bool :=
  match d with
  | [] => false
  | (k, _) :: rest => String.eqb key k || dict_contains key rest
  end.

(** [d.get(key)] with [None] for a missing key *)
Fixpoint dict_lookup (key : string) (d : dict) : option pyval :=
  match d with
  | [] => None
  | (k, v) :: rest => if String.eqb key k then Some v else dict_lookup key rest
  end.

(** [d[key]] *)
Definition dict_getitem (key : string) (d : dict) : result pyval :=
  match dict_lookup key d with
  | Some v => Ok v
  | None => Raise (KeyError key)
  end.

(** [d.get(key, default)] *)
Definition dict_get (key : string) (default : pyval) (d : dict) : pyval :=
  match dict_lookup key d with
  | Some v => v
  | None => default
  end.

(** [d[key] = v]: a present key keeps its place, a new one goes last. *)
Fixpoint dict_setitem (key : string) (v : pyval) (d : dict) : dict :=
  match d with
  | [] => [(key, v)]
  | (k, w) :: rest =>
      if String.eqb key k then (k, v) :: rest
      else (k, w) :: dict_setitem key v rest
  end.

(** [str(type(value))] *)
Definition type_repr (value : pyval) : string :=
  "<class '" ++
  match value with
  | PNone => "NoneType"
  | PBool _ => "bool"
  | PInt _ => "int"
  | PFloat _ => "float"
  | PStr _ => "str"
  | PDict _ => "dict"
  | PList _ => "list"
  | PEmbText _ => "capydb._emb_json._emb_text.EmbText"
  | PEmbImage _ => "capydb._emb_json._emb_image.EmbImage"
  | PObjectId _ => "bson.objectid.ObjectId"
  | PDatetime _ => "datetime.datetime"
  | PDecimal128 _ => "bson.decimal128.Decimal128"
  | PBinary _ => "bson.binary.Binary"
  | PRegex _ => "bson.regex.Regex"
  | PCode _ => "bson.code.Code"
  | PTimestamp _ => "bson.timestamp.Timestamp"
  | PMinKey => "bson.min_key.MinKey"
  | PMaxKey => "bson.max_key.MaxKey"
  | PObject cls => cls
  end ++ "'>".

(** [isinstance(value, (bool, int, float, str))] *)
Definition isinstance_scalar (value : pyval) : bool :=
  match value with
  | PBool _ | PInt _ | PFloat _ | PStr _ => true
  | PCode _ => Code_isinstance_str
  | _ => false
  end.

(** [obj[key]] with a string key on an arbitrary object *)
Definition py_getitem (obj : pyval) (key : string) : result pyval :=
  match obj with
  | PDict d => dict_getitem key d
  | _ => Raise (TypeError (type_repr obj ++ " cannot be indexed by a str"))
  end.

(** [obj.get(key, default)] on an arbitrary object *)
Definition py_get (obj : pyval) (key : string) (default : pyval)
  : result pyval :=
  match obj with
  | PDict d => Ok (dict_get key default d)
  | _ => Raise (AttributeError (type_repr obj ++ " has no attribute 'get'"))
  end.

(** [bytes.fromhex(x)] *)
Definition bytes_fromhex (x : pyval) : result Hex.bytes :=
  match x with
  | PStr s =>
      match Hex.fromhex s with
      | Some b => Ok b
      | None => Raise (ValueError "non-hexadecimal number found in fromhex() arg")
      end
  | _ => Raise (TypeError ("fromhex() argument must be str, not " ++ type_repr x))
  end.

(** The registry [BSON_SERIALIZERS]: the lambda registered for
    [type(value)] applied to [value]; [None] when the type is no key. *)
Definition BSON_SERIALIZERS (value : pyval) : option pyval :=
  match value with
  | PEmbText v => Some (PDict [("@embText", EmbText_to_json v)])
  | PObjectId v => Some (PDict [("$oid", PStr (ObjectId_str v))])
  | PDatetime v => Some (PDict [("$date", PStr (datetime_isoformat v))])
  | PDecimal128 v => Some (PDict [("$numberDecimal", PStr (Decimal128_str v))])
  | PBinary v => Some (PDict [("$binary", PStr (Hex.hex (Binary_bytes v)))])
  | PRegex v =>
      Some (PDict [("$regex", Regex_pattern v); ("$options", Regex_flags v)])
  | PCode v => Some (PDict [("$code", PStr (Code_str v))])
  | PTimestamp v =>
      Some (PDict [("$timestamp",
                    PDict [("t", PInt (Timestamp_time v));
                           ("i", PInt (Timestamp_inc v))])])
  | PMinKey => Some (PDict [("$minKey", PInt 1)])
  | PMaxKey => Some (PDict [("$maxKey", PInt 1)])
  | _ => None
  end.

(** [Collection.__serialize] *)
Fixpoint serialize (value : pyval) : result pyval :=
  if match value with PNone => true | _ => isinstance_scalar value end
  then Ok value
  else
    match value with
    | PDict items =>
        items' <- mapM (fun kv : string * pyval =>
                          let (k, v) := kv in
                          v' <- serialize v ;; Ok (k, v')) items ;;
        Ok (PDict items')
    | PList items =>
        items' <- mapM serialize items ;;
        Ok (PList items')
    | PEmbText v => Ok (EmbText_to_json v)
    | PEmbImage v => Ok (EmbImage_to_json v)
    | _ =>
        match BSON_SERIALIZERS value with
        | Some wire => Ok wire
        | None => Raise (TypeError ("Unsupported BSON type: " ++ type_repr value))
        end
    end.

(** The chain of comparisons under [elif key.startswith("$")]: what the
    loop returns for this key, or [None] when no comparison matches and
    the loop goes on. *)
Definition decode_tagged (key : string) (value : dict)
  : option (result pyval) :=
  if String.eqb key "$oid" then
    Some (x <- dict_getitem "$oid" value ;;
          o <- ObjectId_new x ;; Ok (PObjectId o))
  else if String.eqb key "$date" then
    Some (x <- dict_getitem "$date" value ;;
          d <- datetime_fromisoformat x ;; Ok (PDatetime d))
  else if String.eqb key "$numberDecimal" then
    Some (x <- dict_getitem "$numberDecimal" value ;;
          d <- Decimal128_new x ;; Ok (PDecimal128 d))
  else if String.eqb key "$binary" then
    Some (x <- dict_getitem "$binary" value ;;
          b <- bytes_fromhex x ;; Ok (PBinary (Binary_new b)))
  else if String.eqb key "$regex" then
    Some (p <- dict_getitem "$regex" value ;;
          r <- Regex_new p (dict_get "$options" (PInt 0) value) ;;
          Ok (PRegex r))
  else if String.eqb key "$code" then
    Some (x <- dict_getitem "$code" value ;;
          c <- Code_new x ;; Ok (PCode c))
  else if String.eqb key "$timestamp" then
    Some (ts <- dict_getitem "$timestamp" value ;;
          t <- py_getitem ts "t" ;;
          ts' <- dict_getitem "$timestamp" value ;;
          i <- py_getitem ts' "i" ;;
          r <- Timestamp_new t i ;; Ok (PTimestamp r))
  else if String.eqb key "$minKey" then Some (Ok PMinKey)
  else if String.eqb key "$maxKey" then Some (Ok PMaxKey)
  else None.

(** The loop [for key in value] of [__deserialize], over the keys still to
    visit: [Some r] when an iteration returns [r], [None] when the loop
    runs to its end. *)
Fixpoint scan_keys (value : dict) (keys : list string)
  : option (result pyval) :=
  match keys with
  | [] => None
  | key :: rest =>
      if dict_contains "@embText" value then
        Some (e <- EmbText_from_json (PDict value) ;; Ok (PEmbText e))
      else if dict_contains "@embImage" value then
        Some (e <- EmbImage_from_json (PDict value) ;; Ok (PEmbImage e))
      else if String.prefix "$" key then
        match decode_tagged key value with
        | Some r => Some r
        | None => scan_keys value rest
        end
      else scan_keys value rest
  end.

(** [Collection.__deserialize] *)
Fixpoint deserialize (value : pyval) (depth : Z) {struct value}
  : result pyval :=
  match value with
  | PDict items =>
      match scan_keys items (map fst items) with
      | Some r => r
      | None =>
          items' <- mapM (fun kv : string * pyval =>
                            let (k, v) := kv in
                            v' <- deserialize v (depth + 1) ;; Ok (k, v')) items ;;
          Ok (PDict items')
      end
  | PList items =>
      items' <- mapM (fun item => deserialize item (depth + 1)) items ;;
      Ok (PList items')
  | PNone => Ok PNone
  | _ =>
      if isinstance_scalar value then Ok value
      else Raise (TypeError ("Unsupported BSON type during deserialization: "
                             ++ type_repr value))
  end.

(* ---------------------------------------------------------------- *)
(** ** Responses and their classification *)

(** A [requests.Response]: its status, its body text, and what
    [response.json()] returns ([None] when the body is not JSON and the
    call raises [JSONDecodeError]). *)
Record response : Type := {
  status_code : Z;
  text : string;
  json : option pyval
}.

(** [response.raise_for_status()] *)
Definition raise_for_status (r : response) : result unit :=
  if (400 <=? status_code r) && (status_code r <? 600)
  then Raise (HTTPError (status_code r))
  else Ok tt.

(** [response.json()] *)
Definition response_json (r : response) : result pyval :=
  match json r with
  | Some v => Ok v
  | None => Raise JSONDecodeError
  end.

Definition is_HTTPError (e : exn) : bool :=
  match e with HTTPError _ => true | _ => false end.

Definition is_ValueError (e : exn) : bool :=
  match e with ValueError _ | JSONDecodeError => true | _ => false end.

(** Exact comparison of a float with an integer, as Python does it. *)
Definition float_compare_int (f : spec_float) (n : Z) : option comparison :=
  match f with
  | S754_nan => None
  | S754_infinity s => Some (if s then Lt else Gt)
  | S754_zero _ => Some (0 ?= n)
  | S754_finite s m e =>
      let v := if s then Z.neg m else Z.pos m in
      Some (if 0 <=? e then (v * 2 ^ e ?= n) else (v ?= n * 2 ^ (- e)))
  end.

(** The number a value compares as, when it is one. *)
Definition compare_int (x : pyval) (n : Z) : option (option comparison) :=
  match x with
  | PInt z => Some (Some (z ?= n))
  | PBool b => Some (Some (Z.b2z b ?= n))
  | PFloat f => Some (float_compare_int f n)
  | _ => None
  end.

(** [x == n] *)
Definition py_eq_int (x : pyval) (n : Z) : bool :=
  match compare_int x n with
  | Some (Some Eq) => true
  | _ => false
  end.

(** [x >= n] *)
Definition py_ge_int (x : pyval) (n : Z) : result bool :=
  match compare_int x n with
  | Some (Some Lt) | Some None => Ok false
  | Some (Some _) => Ok true
  | None => Raise (TypeError ("'>=' not supported between instances of "
                              ++ type_repr x ++ " and 'int'"))
  end.

(** [x < n] *)
Definition py_lt_int (x : pyval) (n : Z) : result bool :=
  match compare_int x n with
  | Some (Some Lt) => Ok true
  | Some _ => Ok false
  | None => Raise (TypeError ("'<' not supported between instances of "
                              ++ type_repr x ++ " and 'int'"))
  end.

(** [Collection.handle_response] *)
Definition handle_response (r : response) : result pyval :=
  try_except
    (_ <- raise_for_status r ;;
     json_response <- response_json r ;;
     deserialize json_response 0)
    is_HTTPError
    (fun _ =>
       try_except
         (error_data <- response_json r ;;
          status <- py_get error_data "status" (PStr "error") ;;
          code <- py_get error_data "code" (PInt 500) ;;
          message <- py_get error_data "message"
                       (PStr "An unknown error occurred.") ;;
          if py_eq_int code 401 then Raise (AuthenticationError code message)
          else
            ge <- py_ge_int code 400 ;;
            lt <- (if ge then py_lt_int code 500 else Ok false) ;;
            if ge && lt then Raise (ClientRequestError code message)
            else Raise (ServerError code message))
         is_ValueError
         (fun _ => Raise (APIClientError (PInt (status_code r))
                                         (PStr (text r))))).

(* ---------------------------------------------------------------- *)
(** ** The collection and its operations *)

Record Collection : Type := {
  api_key : string;
  project_id : string;
  db_name : string;
  collection_name : string
}.

(** One call of [requests.post], [requests.put] or [requests.delete]:
    the verb, the url, the headers and the [json=] argument. *)
Record request : Type := {
  rq_method : string;
  rq_url : string;
  rq_headers : list (string * string);
  rq_json : option pyval
}.

Definition get_collection_url (self : Collection) : string :=
  "https://api.capydb.com/v0/db/" ++ project_id self ++ "_" ++ db_name self
    ++ "/collection/" ++ collection_name self ++ "/document".

Definition get_headers (self : Collection) : list (string * string) :=
  [("Authorization", "Bearer " ++ api_key self);
   ("Content-Type", "application/json")].

(** What [insert] passes to [requests.post]. *)
Definition insert_request (self : Collection) (documents : list pyval)
  : result request :=
  let url := get_collection_url self in
  let headers := get_headers self in
  serialized_docs <- mapM serialize documents ;;
  let data := PDict [("documents", PList serialized_docs)] in
  Ok {| rq_method := "POST"; rq_url := url; rq_headers := headers;
        rq_json := Some data |}.

(** What [update] passes to [requests.put]. *)
Definition update_request (self : Collection) (filter update upsert : pyval)
  : result request :=
  let url := get_collection_url self in
  let headers := get_headers self in
  transformed_filter <- serialize filter ;;
  transformed_update <- serialize update ;;
  let data := PDict [("filter", transformed_filter);
                     ("update", transformed_update);
                     ("upsert", upsert)] in
  Ok {| rq_method := "PUT"; rq_url := url; rq_headers := headers;
        rq_json := Some data |}.

(** What [delete] passes to [requests.delete]. *)
Definition delete_request (self : Collection) (filter : pyval)
  : result request :=
  let url := get_collection_url self in
  let headers := get_headers self in
  transformed_filter <- serialize filter ;;
  let data := PDict [("filter", transformed_filter)] in
  Ok {| rq_method := "DELETE"; rq_url := url; rq_headers := headers;
        rq_json := Some data |}.

(** What [find] passes to [requests.post]. *)
Definition find_request (self : Collection)
    (filter projection sort limit skip : pyval) : result request :=
  let url := get_collection_url self ++ "/find" in
  let headers := get_headers self in
  transformed_filter <- serialize filter ;;
  let data := PDict [("filter", transformed_filter);
                     ("projection", projection);
                     ("sort", sort);
                     ("limit", limit);
                     ("skip", skip)] in
  Ok {| rq_method := "POST"; rq_url := url; rq_headers := headers;
        rq_json := Some data |}.

Definition is_not_None (v : pyval) : bool :=
  match v with PNone => false | _ => true end.

(** The dictionary [data] that [query] builds. *)
Definition query_data (query filter projection emb_model top_k
                       include_values : pyval) : dict :=
  let data := [("query", query)] in
  let data := if is_not_None filter
              then dict_setitem "filter" filter data else data in
  let data := if is_not_None projection
              then dict_setitem "projection" projection data else data in
  let data := if is_not_None emb_model
              then dict_setitem "emb_model" emb_model data else data in
  let data := if is_not_None top_k
              then dict_setitem "top_k" top_k data else data in
  let data := if is_not_None include_values
              then dict_setitem "include_values" include_values data
              else data in
  data.

(** What [query] passes to [requests.post]. *)
Definition query_request (self : Collection)
    (query filter projection emb_model top_k include_values : pyval)
  : request :=
  {| rq_method := "POST";
     rq_url := get_collection_url self ++ "/query";
     rq_headers := get_headers self;
     rq_json := Some (PDict (query_data query filter projection emb_model
                                        top_k include_values)) |}.

(** What [drop] passes to [requests.delete]: no body. *)
Definition drop_request (self : Collection) : request :=
  {| rq_method := "DELETE";
     rq_url := "https://api.capydb.com/v0/db/" ++ project_id self ++ "_"
                 ++ db_name self ++ "/collection/" ++ collection_name self;
     rq_headers := get_headers self;
     rq_json := None |}.

Section Operations.
(** The transport, [requests]: answers a request or raises. *)
Variable requests_send : request -> result response.

Definition insert (self : Collection) (documents : list pyval)
  : result pyval :=
  rq <- insert_request self documents ;;
  response <- requests_send rq ;;
  handle_response response.

Definition update (self : Collection) (filter update upsert : pyval)
  : result pyval :=
  rq <- update_request self filter update upsert ;;
  response <- requests_send rq ;;
  handle_response response.

Definition delete (self : Collection) (filter : pyval) : result pyval :=
  rq <- delete_request self filter ;;
  response <- requests_send rq ;;
  handle_response response.

Definition find (self : Collection)
    (filter projection sort limit skip : pyval) : result pyval :=
  rq <- find_request self filter projection sort limit skip ;;
  response <- requests_send rq ;;
  response_data <- handle_response response ;;
  py_get response_data "docs" (PList []).

Definition query (self : Collection)
    (query filter projection emb_model top_k include_values : pyval)
  : result pyval :=
  response <- requests_send
                (query_request self query filter projection emb_model
                               top_k include_values) ;;
  response_data <- handle_response response ;;
  py_get response_data "matches" (PList []).

Definition drop (self : Collection) : result pyval :=
  response <- requests_send (drop_request self) ;;
  if status_code response =? 204 then Ok PNone
  else
    _ <- handle_response response ;;
    Ok PNone.

End Operations.

End Codec.

(* ================================================================== *)
(** * Vocabulary of the properties *)
(* ================================================================== *)

Section Vocabulary.
Context {T : ExtTypes} {L : ExtLib}.

(** The nine [$]-tags, in the order the specification lists them. *)
Definition tag_priority : list string :=
  ["$oid"; "$date"; "$numberDecimal"; "$binary"; "$regex"; "$code";
   "$timestamp"; "$minKey"; "$maxKey"].

Definition is_tag (key : string) : bool :=
  existsb (String.eqb key) tag_priority.

(** The keys that make [deserialize] read a dictionary as a tagged value. *)
Definition is_reserved (key : string) : bool :=
  String.eqb key "@embText" || String.eqb key "@embImage" || is_tag key.

(** A dictionary that carries neither placeholder key. *)
Definition no_placeholder_key (d : dict) : bool :=
  negb (dict_contains "@embText" d) && negb (dict_contains "@embImage" d).

(** The first tag of the fixed order that is a key of [d]. *)
Definition first_tag_by_priority (d : dict) : option string :=
  List.find (fun t => dict_contains t d) tag_priority.

(** The first key of [d], in the order of [d], that is a tag. *)
Definition first_tag_in_document (d : dict) : option string :=
  List.find is_tag (map fst d).

(** The extension value of a tag, from the payload bound to the tag and
    the value of [d.get("$options", 0)]; nothing else of the document
    enters. *)
Definition variant_of_payload (tag : string) (payload options : pyval)
  : result pyval :=
  if String.eqb tag "$oid" then
    o <- ObjectId_new payload ;; Ok (PObjectId o)
  else if String.eqb tag "$date" then
    d <- datetime_fromisoformat payload ;; Ok (PDatetime d)
  else if String.eqb tag "$numberDecimal" then
    d <- Decimal128_new payload ;; Ok (PDecimal128 d)
  else if String.eqb tag "$binary" then
    b <- bytes_fromhex payload ;; Ok (PBinary (Binary_new b))
  else if String.eqb tag "$regex" then
    r <- Regex_new payload options ;; Ok (PRegex r)
  else if String.eqb tag "$code" then
    c <- Code_new payload ;; Ok (PCode c)
  else if String.eqb tag "$timestamp" then
    t <- py_getitem payload "t" ;;
    i <- py_getitem payload "i" ;;
    r <- Timestamp_new t i ;; Ok (PTimestamp r)
  else if String.eqb tag "$minKey" then Ok PMinKey
  else Ok PMaxKey.

(** The structural reading of a dictionary: every value deserialized, keys
    kept as they are and in their order. *)
Definition deserialize_items (d : dict) (depth : Z) : result pyval :=
  items' <- mapM (fun kv : string * pyval =>
                    let (k, v) := kv in
                    v' <- deserialize v (depth + 1) ;; Ok (k, v')) d ;;
  Ok (PDict items').

(** The eleven extension variants. *)
Definition is_extension (v : pyval) : bool :=
  match v with
  | PEmbText _ | PEmbImage _ | PObjectId _ | PDatetime _ | PDecimal128 _
  | PBinary _ | PRegex _ | PCode _ | PTimestamp _ | PMinKey | PMaxKey => true
  | _ => false
  end.

(** Equality of extension values, a [Binary] by its bytes. *)
Definition ext_equal (v w : pyval) : Prop :=
  match v, w with
  | PBinary a, PBinary b => Binary_bytes a = Binary_bytes b
  | _, _ => v = w
  end.

(** Only [None], booleans, integers, floats, strings, and dictionaries and
    lists of such. *)
Fixpoint plain (v : pyval) : bool :=
  match v with
  | PNone | PBool _ | PInt _ | PFloat _ | PStr _ => true
  | PDict items =>
      (fix all (l : list (string * pyval)) : bool :=
         match l with
         | [] => true
         | (_, x) :: rest => plain x && all rest
         end) items
  | PList items =>
      (fix all (l : list pyval) : bool :=
         match l with
         | [] => true
         | x :: rest => plain x && all rest
         end) items
  | _ => false
  end.

(** No dictionary, at any depth, has a reserved key. *)
Fixpoint tag_free (v : pyval) : bool :=
  match v with
  | PDict items =>
      (fix all (l : list (string * pyval)) : bool :=
         match l with
         | [] => true
         | (k, x) :: rest => negb (is_reserved k) && tag_free x && all rest
         end) items
  | PList items =>
      (fix all (l : list pyval) : bool :=
         match l with
         | [] => true
         | x :: rest => tag_free x && all rest
         end) items
  | _ => true
  end.

(** A document or a sequence. *)
Definition is_container (v : pyval) : bool :=
  match v with PDict _ | PList _ => true | _ => false end.

(** A value [serialize] has a branch for: not an instance of a class the
    module does not know. *)
Definition recognized (v : pyval) : bool :=
  match v with PObject _ => false | _ => true end.

(** Every value met while walking the dictionaries and lists of [v] is
    recognized. *)
Fixpoint supported (v : pyval) : bool :=
  match v with
  | PDict items =>
      (fix all (l : list (string * pyval)) : bool :=
         match l with
         | [] => true
         | (_, x) :: rest => supported x && all rest
         end) items
  | PList items =>
      (fix all (l : list pyval) : bool :=
         match l with
         | [] => true
         | x :: rest => supported x && all rest
         end) items
  | PObject _ => false
  | _ => true
  end.

(** The error of [serialize] on a value [u] it has no branch for. *)
Definition unsupported_error (u : pyval) : exn :=
  TypeError ("Unsupported BSON type: " ++ type_repr u).

(** What [deserialize] accepts at its top: a scalar, a mapping or a
    sequence. *)
Definition is_wire_shape (v : pyval) : bool :=
  match v with
  | PNone | PDict _ | PList _ => true
  | _ => isinstance_scalar v
  end.

(** A failed transport response: [raise_for_status] raises. *)
Definition failed (r : response) : Prop :=
  400 <= status_code r < 600.

(** The classes of the module's error taxonomy. *)
Definition is_APIClientError (e : exn) : bool :=
  match e with
  | APIClientError _ _ | AuthenticationError _ _
  | ClientRequestError _ _ | ServerError _ _ => true
  | _ => false
  end.

(** The error the classification table gives an integer code. *)
Definition classify (code : Z) (message : pyval) : exn :=
  if code =? 401 then AuthenticationError (PInt code) message
  else if (400 <=? code) && (code <? 500)
       then ClientRequestError (PInt code) message
       else ServerError (PInt code) message.

(** The json body of a request, as a dictionary. *)
Definition request_data (rq : request) : dict :=
  match rq_json rq with
  | Some (PDict d) => d
  | _ => []
  end.

(** The reading of [deserialize] by a fixed order of the tags: the
    document decodes as the variant of the first tag of [tag_priority]
    that it has. *)
Definition decodes_by_fixed_priority : Prop :=
  forall (d : dict) (depth : Z) (tag : string) (payload : pyval),
    no_placeholder_key d = true ->
    first_tag_by_priority d = Some tag ->
    dict_lookup tag d = Some payload ->
    deserialize (PDict d) depth
    = variant_of_payload tag payload (dict_get "$options" (PInt 0) d).

(** The round trip of every plain document or sequence. *)
Definition plain_containers_round_trip : Prop :=
  forall (x : pyval) (depth : Z),
    is_container x = true ->
    plain x = true ->
    exists wire, serialize x = Ok wire /\ deserialize wire depth = Ok x.

(** [key] of the body of [rq] is the serialized form of [input]. *)
Definition sends_serialized (rq : request) (key : string) (input : pyval)
  : Prop :=
  exists wire, serialize input = Ok wire
               /\ dict_lookup key (request_data rq) = Some wire.

(** [key] of the body of [rq] is [input] itself. *)
Definition sends_as_given (rq : request) (key : string) (input : pyval)
  : Prop :=
  dict_lookup key (request_data rq) = Some input.

(** The message the classifier reads from an error body. *)
Definition error_message (d : dict) : pyval :=
  dict_get "message" (PStr "An unknown error occurred.") d.

(** Every structured input of [find] goes through [serialize]. *)
Definition find_serializes_every_input : Prop :=
  forall (self : Collection) (filter projection sort limit skip : pyval)
         (rq : request),
    find_request self filter projection sort limit skip = Ok rq ->
    sends_serialized rq "filter" filter
    /\ sends_serialized rq "projection" projection
    /\ sends_serialized rq "sort" sort.

End Vocabulary.

(** What the round trip of the extension values asks of the external
    classes: printing and parsing are inverse, [Binary] keeps its bytes, and
    a placeholder exports a dictionary under its own tag from which it is
    rebuilt. *)
Class ExtLaws `{L : ExtLib} : Prop := {
  ObjectId_new_str : forall o, ObjectId_new (PStr (ObjectId_str o)) = Ok o;
  datetime_fromisoformat_isoformat :
    forall d, datetime_fromisoformat (PStr (datetime_isoformat d)) = Ok d;
  Decimal128_new_str :
    forall d, Decimal128_new (PStr (Decimal128_str d)) = Ok d;
  Binary_bytes_new : forall b, Binary_bytes (Binary_new b) = b;
  Regex_new_attrs :
    forall r, Regex_new (Regex_pattern r) (Regex_flags r) = Ok r;
  Code_new_str : forall c, Code_new (PStr (Code_str c)) = Ok c;
  Timestamp_new_attrs :
    forall t, Timestamp_new (PInt (Timestamp_time t)) (PInt (Timestamp_inc t))
              = Ok t;
  EmbText_to_json_tagged :
    forall e, exists d, EmbText_to_json e = PDict d
                        /\ dict_contains "@embText" d = true;
  EmbText_from_json_to_json :
    forall e, EmbText_from_json (EmbText_to_json e) = Ok e;
  EmbImage_to_json_tagged :
    forall e, exists d, EmbImage_to_json e = PDict d
                        /\ dict_contains "@embImage" d = true
                        /\ dict_contains "@embText" d = false;
  EmbImage_from_json_to_json :
    forall e, EmbImage_from_json (EmbImage_to_json e) = Ok e
}.

(* ================================================================== *)
(** * A small instance of the external classes *)
(* ================================================================== *)

(** Enough of the libraries to run the codec: an [ObjectId], a [datetime]
    and a [Decimal128] are their printed forms, a [Binary] is its bytes and
    its subtype, a [Regex] its pattern and flags, a [Timestamp] its two
    counters, a placeholder its text. *)
Module Ref.

#[export] Instance types : ExtTypes := {|
  ObjectId := string;
  datetime := string;
  Decimal128 := string;
  Binary := Hex.bytes * Z;
  Regex := string * Z;
  Code := string;
  Timestamp := Z * Z;
  EmbText := string;
  EmbImage := string
|}.

Definition of_str (what : string) (x : pyval) : result string :=
  match x with
  | PStr s => Ok s
  | _ => Raise (TypeError (what ++ " must be a str"))
  end.

Definition regex_of (pattern flags : pyval) : result (string * Z) :=
  match pattern, flags with
  | PStr p, PInt f => Ok (p, f)
  | _, _ => Raise (TypeError "pattern must be a str and flags an int")
  end.

Definition timestamp_of (time inc : pyval) : result (Z * Z) :=
  match time, inc with
  | PInt t, PInt i => Ok (t, i)
  | _, _ => Raise (TypeError "time and inc must be int")
  end.

Definition to_json (tag field : string) (e : string) : pyval :=
  PDict [(tag, PDict [(field, PStr e)])].

Definition from_json (tag field : string) (d : pyval) : result string :=
  body <- py_getitem d tag ;;
  x <- py_getitem body field ;;
  of_str field x.

#[export] Instance lib : ExtLib := {|
  ObjectId_new := of_str "ObjectId";
  ObjectId_str := fun o => o;
  datetime_fromisoformat := of_str "fromisoformat";
  datetime_isoformat := fun d => d;
  Decimal128_new := of_str "Decimal128";
  Decimal128_str := fun d => d;
  Binary_new := fun b => (b, 0);
  Binary_bytes := fst;
  Regex_new := regex_of;
  Regex_pattern := fun r => PStr (fst r);
  Regex_flags := fun r => PInt (snd r);
  Code_new := of_str "Code";
  Code_str := fun c => c;
  Code_isinstance_str := true;
  Timestamp_new := timestamp_of;
  Timestamp_time := fst;
  Timestamp_inc := snd;
  EmbText_from_json := from_json "@embText" "text";
  EmbText_to_json := to_json "@embText" "text";
  EmbImage_from_json := from_json "@embImage" "data";
  EmbImage_to_json := to_json "@embImage" "data"
|}.

(** The same library with a [Code] class that does not derive from
    [str], so that the registry entry of [Code] is the one that runs. *)
Definition lib_plain_code : ExtLib := {|
  ObjectId_new := of_str "ObjectId";
  ObjectId_str := fun o => o;
  datetime_fromisoformat := of_str "fromisoformat";
  datetime_isoformat := fun d => d;
  Decimal128_new := of_str "Decimal128";
  Decimal128_str := fun d => d;
  Binary_new := fun b => (b, 0);
  Binary_bytes := fst;
  Regex_new := regex_of;
  Regex_pattern := fun r => PStr (fst r);
  Regex_flags := fun r => PInt (snd r);
  Code_new := of_str "Code";
  Code_str := fun c => c;
  Code_isinstance_str := false;
  Timestamp_new := timestamp_of;
  Timestamp_time := fst;
  Timestamp_inc := snd;
  EmbText_from_json := from_json "@embText" "text";
  EmbText_to_json := to_json "@embText" "text";
  EmbImage_from_json := from_json "@embImage" "data";
  EmbImage_to_json := to_json "@embImage" "data"
|}.

(** A collection, and a transport that answers every request with one
    response. *)
Definition coll : Collection :=
  {| api_key := "k"; project_id := "p"; db_name := "db";
     collection_name := "c" |}.

Definition answer (r : response) : request -> result response :=
  fun _ => Ok r.

(** Values, documents and responses the properties are run on. *)
Definition two_bytes : pyval := PBinary ([Byte.x01; Byte.xff], 5).

Definition max_before_min : dict :=
  [("$maxKey", PInt 1); ("$minKey", PInt 1)].

Definition date_before_oid : dict :=
  [("name", PStr "x"); ("$date", PStr "2020-01-01T00:00:00");
   ("$oid", PStr "0123456789abcdef01234567")].

Definition text_and_oid : dict :=
  [("$oid", PStr "0123456789abcdef01234567");
   ("@embText", PDict [("text", PStr "hello")])].

Definition list_with_bytes : pyval := PList [PInt 1; PObject "bytes"].

Definition not_found : response :=
  {| status_code := 404;
     text := "{...}";
     json := Some (PDict [("status", PStr "error"); ("code", PInt 404);
                          ("message", PStr "no such collection")]) |}.

Definition min_key_document : pyval := PDict [("$minKey", PInt 1)].

Definition operator_document : pyval :=
  PDict [("age", PDict [("$gt", PInt 5)]); ("tags", PList [PStr "a"; PNone])].

Definition ok_empty : response :=
  {| status_code := 200; text := "{}"; json := Some (PDict []) |}.

Definition min_key_projection : pyval := PDict [("a", PMinKey)].


End Ref.

(* ================================================================== *)
(** * The client *)
(* ================================================================== *)

(** [CapyDB.__init__] of [_client.py].  The environment is what
    [os.getenv] reads: a variable is set to a string or unset. *)
Module Client.
Section Client.
Context {T : ExtTypes}.

Definition environ := string -> option string.

(** [os.getenv(name, default)] *)
Definition getenv (env : environ) (name default : string) : string :=
  match env name with
  | Some v => v
  | None => default
  end.

(** [s.rstrip(c)] for a one-character [c]: the trailing run of [c] is
    removed. *)
Fixpoint rstrip (c : ascii) (s : string) : string :=
  match s with
  | EmptyString => EmptyString
  | String x rest =>
      match rstrip c rest with
      | EmptyString => if Ascii.eqb x c then EmptyString else String x EmptyString
      | String y r => String x (String y r)
      end
  end.

(** The attributes [__init__] sets; [session_headers] is the update applied
    to the headers of the new [requests.Session]. *)
Record CapyDB : Type := {
  project_id : string;
  api_key : string;
  base_url : string;
  session_headers : list (string * string)
}.

Definition missing_project_id : string :=
  "Missing Project ID: Please provide the Project ID as an argument or set it in the CAPYDB_PROJECT_ID environment variable. Tip: Ensure your environment file (e.g., .env) is loaded.".

Definition missing_api_key : string :=
  "Missing API Key: Please provide the API Key as an argument or set it in the CAPYDB_API_KEY environment variable. Tip: Ensure your environment file (e.g., .env) is loaded.".

(** [not s] for a string *)
Definition is_empty (s : string) : bool :=
  match s with EmptyString => true | _ => false end.

(** [CapyDB.__init__] *)
Definition init (env : environ) : result CapyDB :=
  let project_id := getenv env "CAPYDB_PROJECT_ID" "" in
  let api_key := getenv env "CAPYDB_API_KEY" "" in
  if is_empty project_id then Raise (ValueError missing_project_id)
  else if is_empty api_key then Raise (ValueError missing_api_key)
  else
    Ok {| project_id := project_id;
          api_key := api_key;
          base_url := rstrip "/" ("https://api.capydb.com/" ++ project_id);
          session_headers := [("Authorization", "Bearer " ++ api_key)] |}.

(** [s.endswith(c)] *)
Fixpoint ends_with (c : ascii) (s : string) : bool :=
  match s with
  | EmptyString => false
  | String x EmptyString => Ascii.eqb x c
  | String _ rest => ends_with c rest
  end.

(** [c * n] *)
Fixpoint replicate (c : ascii) (n : nat) : string :=
  match n with
  | O => EmptyString
  | S m => String c (replicate c m)
  end.

End Client.
End Client.

(* ================================================================== *)
(** * Vocabulary of the further properties *)
(* ================================================================== *)

Section MoreVocabulary.
Context {T : ExtTypes} {L : ExtLib}.

(** A value built of [None], scalars and extension values, in documents
    without reserved keys and in sequences. *)
Fixpoint round_trippable (v : pyval) : bool :=
  match v with
  | PDict items =>
      (fix all (l : list (string * pyval)) : bool :=
         match l with
         | [] => true
         | (k, x) :: rest =>
             negb (is_reserved k) && round_trippable x && all rest
         end) items
  | PList items =>
      (fix all (l : list pyval) : bool :=
         match l with
         | [] => true
         | x :: rest => round_trippable x && all rest
         end) items
  | PObject _ => false
  | _ => true
  end.

(** Equality of values, with [Binary] leaves compared by their bytes:
    documents have the same keys in the same order and the same values,
    sequences the same elements in the same order. *)
#[local] Unset Elimination Schemes.
Inductive same_value : pyval -> pyval -> Prop :=
  | same_leaf (v w : pyval) :
      is_container v = false -> ext_equal v w -> same_value v w
  | same_dict (d d' : dict) :
      Forall2 (fun kv kv' : string * pyval =>
                 fst kv = fst kv' /\ same_value (snd kv) (snd kv')) d d' ->
      same_value (PDict d) (PDict d')
  | same_list (l l' : list pyval) :
      Forall2 same_value l l' -> same_value (PList l) (PList l').
#[local] Set Elimination Schemes.

(** [isinstance(v, (bool, int, float))]: what compares with an integer. *)
Definition is_number (v : pyval) : bool :=
  match v with
  | PBool _ | PInt _ | PFloat _ => true
  | _ => false
  end.

(** The code the classifier reads from an error body. *)
Definition error_code (d : dict) : pyval := dict_get "code" (PInt 500) d.

(** The keys [query] may put in its body, in the order it does. *)
Definition query_keys (filter projection emb_model top_k include_values
                       : pyval) : list string :=
  "query"
  :: (if is_not_None filter then ["filter"] else [])
  ++ (if is_not_None projection then ["projection"] else [])
  ++ (if is_not_None emb_model then ["emb_model"] else [])
  ++ (if is_not_None top_k then ["top_k"] else [])
  ++ (if is_not_None include_values then ["include_values"] else []).

(** The request [rq] ends in the exception [e]: the transport raises it, or
    answers with a failed response on which the classifier raises it. *)
Definition fails_with (requests_send : request -> result response)
    (rq : request) (e : exn) : Prop :=
  requests_send rq = Raise e
  \/ exists r, requests_send rq = Ok r /\ failed r
                /\ handle_response r = Raise e.


(** Every failed response ends in one error of the module's taxonomy. *)
Definition every_failed_response_is_classified : Prop :=
  forall r : response,
    failed r ->
    exists e, handle_response r = Raise e /\ is_APIClientError e = true.

(** A body the classifier can read: not JSON at all, or a JSON object whose
    [code] is absent or a number. *)
Definition classifiable (r : response) : Prop :=
  json r = None
  \/ exists d, json r = Some (PDict d) /\ is_number (error_code d) = true.

End MoreVocabulary.

(** Further values the properties are run on. *)
Module Samples.
Import Ref.

Definition profile : pyval :=
  PDict [("_id", PObjectId "0123456789abcdef01234567");
         ("avatar", PBinary ([Byte.x00; Byte.xab], 2));
         ("bio", PEmbText "hello");
         ("tags", PList [PStr "a"; PMinKey; PNone])].

Definition profile_back : pyval :=
  PDict [("_id", PObjectId "0123456789abcdef01234567");
         ("avatar", PBinary ([Byte.x00; Byte.xab], 0));
         ("bio", PEmbText "hello");
         ("tags", PList [PStr "a"; PMinKey; PNone])].

Definition tagged_plain : pyval :=
  PDict [("$oid", PInt 5); ("@embText", PList [PNone])].

Definition half_timestamp : dict :=
  [("$timestamp", PDict [("t", PInt 1)])].

Definition error_without_code : response :=
  {| status_code := 503; text := "{}"; json := Some (PDict []) |}.

Definition float_code : response :=
  {| status_code := 400; text := "";
     json := Some (PDict [("code", PFloat (S754_finite false 404 0))]) |}.

Definition ok_not_json : response :=
  {| status_code := 200; text := "<html>"; json := None |}.

Definition ok_list : response :=
  {| status_code := 200; text := "[]"; json := Some (PList []) |}.

Definition ok_docs : response :=
  {| status_code := 200; text := "";
     json := Some (PDict [("docs", PList [PDict [("a", PInt 1)]])]) |}.

Definition error_list_body : response :=
  {| status_code := 500; text := "[]"; json := Some (PList []) |}.

Definition error_text_code : response :=
  {| status_code := 400; text := "";
     json := Some (PDict [("code", PStr "401")]) |}.

Definition refuse : request -> result response :=
  fun _ => Raise (OtherError "ConnectionError").

Definition env_full : Client.environ :=
  fun name =>
    if String.eqb name "CAPYDB_PROJECT_ID" then Some "proj/"
    else if String.eqb name "CAPYDB_API_KEY" then Some "secret"
    else None.

Definition env_slash : Client.environ :=
  fun name =>
    if String.eqb name "CAPYDB_PROJECT_ID" then Some "/"
    else if String.eqb name "CAPYDB_API_KEY" then Some "secret"
    else None.

Definition env_no_key : Client.environ :=
  fun name =>
    if String.eqb name "CAPYDB_PROJECT_ID" then Some "proj" else None.

End Samples.

(* ================================================================== *)
(** * Properties *)
(* ================================================================== *)

(** ** Hexadecimal text *)

Module HexFacts.
Import Hex.

Lemma fromhex_byte_hex (x : Byte.byte) (rest : string) :
  fromhex (byte_hex x ++ rest) =
  match fromhex rest with Some bs => Some (x :: bs) | None => None end.
Proof. destruct x; reflexivity. Qed.

Lemma fromhex_hex (b : bytes) : fromhex (hex b) = Some b.
Proof.
  induction b as [|x rest IH]; cbn [hex]; [reflexivity|].
  rewrite fromhex_byte_hex, IH. reflexivity.
Qed.

Lemma upper_app (s t : string) : upper (s ++ t) = upper s ++ upper t.
Proof. induction s as [|c s IH]; simpl; [reflexivity | now rewrite IH]. Qed.

Lemma fromhex_upper_byte_hex (x : Byte.byte) (rest : string) :
  fromhex (upper (byte_hex x) ++ rest) =
  match fromhex rest with Some bs => Some (x :: bs) | None => None end.
Proof. destruct x; reflexivity. Qed.

(** The upper-case spelling of a hex string decodes to the same bytes. *)
Lemma fromhex_upper_hex (b : bytes) : fromhex (upper (hex b)) = Some b.
Proof.
  induction b as [|x rest IH]; cbn [hex]; [reflexivity|].
  rewrite upper_app, fromhex_upper_byte_hex, IH. reflexivity.
Qed.

End HexFacts.

(** ** Induction on values *)

Section PyvalInduction.
Context {T : ExtTypes}.
Variable P : pyval -> Prop.
Hypothesis HNone : P PNone.
Hypothesis HBool : forall b, P (PBool b).
Hypothesis HInt : forall z, P (PInt z).
Hypothesis HFloat : forall f, P (PFloat f).
Hypothesis HStr : forall s, P (PStr s).
Hypothesis HDict :
  forall items, Forall (fun kv => P (snd kv)) items -> P (PDict items).
Hypothesis HList : forall items, Forall P items -> P (PList items).
Hypothesis HEmbText : forall e, P (PEmbText e).
Hypothesis HEmbImage : forall e, P (PEmbImage e).
Hypothesis HObjectId : forall o, P (PObjectId o).
Hypothesis HDatetime : forall d, P (PDatetime d).
Hypothesis HDecimal128 : forall d, P (PDecimal128 d).
Hypothesis HBinary : forall b, P (PBinary b).
Hypothesis HRegex : forall r, P (PRegex r).
Hypothesis HCode : forall c, P (PCode c).
Hypothesis HTimestamp : forall t, P (PTimestamp t).
Hypothesis HMinKey : P PMinKey.
Hypothesis HMaxKey : P PMaxKey.
Hypothesis HObject : forall cls, P (PObject cls).

Fixpoint pyval_ind (v : pyval) : P v :=
  match v with
  | PNone => HNone
  | PBool b => HBool b
  | PInt z => HInt z
  | PFloat f => HFloat f
  | PStr s => HStr s
  | PDict items =>
      HDict items
        ((fix all (l : list (string * pyval))
            : Forall (fun kv => P (snd kv)) l :=
            match l with
            | [] => Forall_nil _
            | kv :: rest => Forall_cons kv (pyval_ind (snd kv)) (all rest)
            end) items)
  | PList items =>
      HList items
        ((fix all (l : list pyval) : Forall P l :=
            match l with
            | [] => Forall_nil _
            | x :: rest => Forall_cons x (pyval_ind x) (all rest)
            end) items)
  | PEmbText e => HEmbText e
  | PEmbImage e => HEmbImage e
  | PObjectId o => HObjectId o
  | PDatetime d => HDatetime d
  | PDecimal128 d => HDecimal128 d
  | PBinary b => HBinary b
  | PRegex r => HRegex r
  | PCode c => HCode c
  | PTimestamp t => HTimestamp t
  | PMinKey => HMinKey
  | PMaxKey => HMaxKey
  | PObject cls => HObject cls
  end.
End PyvalInduction.

(** ** The loop over the keys *)

Section ScanFacts.
Context {T : ExtTypes} {L : ExtLib}.

Lemma dict_contains_lookup (key : string) (d : dict) :
  dict_contains key d = true <-> exists v, dict_lookup key d = Some v.
Proof.
  induction d as [|[k v] rest IH]; simpl.
  - split; [discriminate | intros [v Hv]; discriminate].
  - destruct (String.eqb key k); simpl.
    + split; [eauto | reflexivity].
    + exact IH.
Qed.

Lemma dict_contains_In (key : string) (d : dict) :
  dict_contains key d = true <-> In key (map fst d).
Proof.
  induction d as [|[k v] rest IH]; simpl.
  - split; [discriminate | contradiction].
  - destruct (String.eqb_spec key k) as [->|Hne]; simpl.
    + split; auto.
    + rewrite IH. split; [auto | intros [Heq|Hin]; congruence].
Qed.

(** With [@embText] among the keys the first iteration returns. *)
Lemma scan_keys_embtext (d : dict) :
  dict_contains "@embText" d = true ->
  scan_keys d (map fst d)
  = Some (e <- EmbText_from_json (PDict d) ;; Ok (PEmbText e)).
Proof.
  intros H. destruct d as [|[k v] rest]; [discriminate|].
  cbn [map scan_keys]. rewrite H. reflexivity.
Qed.

Lemma scan_keys_embimage (d : dict) :
  dict_contains "@embText" d = false ->
  dict_contains "@embImage" d = true ->
  scan_keys d (map fst d)
  = Some (e <- EmbImage_from_json (PDict d) ;; Ok (PEmbImage e)).
Proof.
  intros H1 H2. destruct d as [|[k v] rest]; [discriminate|].
  cbn [map scan_keys]. rewrite H1, H2. reflexivity.
Qed.

Lemma is_tag_cases (key : string) :
  is_tag key = true ->
  In key tag_priority.
Proof.
  unfold is_tag. rewrite existsb_exists.
  intros [t [Hin Heq]]. apply String.eqb_eq in Heq. now subst.
Qed.

Lemma not_tag_decode (key : string) (d : dict) :
  is_tag key = false -> decode_tagged key d = None.
Proof.
  unfold is_tag, tag_priority, decode_tagged. cbn [existsb].
  repeat (destruct (String.eqb key _); [discriminate|]).
  reflexivity.
Qed.

(** For a tag, the chain of comparisons builds the variant from the
    payload of that tag. *)
Lemma tag_decode (key : string) (d : dict) (payload : pyval) :
  is_tag key = true ->
  dict_lookup key d = Some payload ->
  String.prefix "$" key = true
  /\ decode_tagged key d
     = Some (variant_of_payload key payload (dict_get "$options" (PInt 0) d)).
Proof.
  intros Htag Hlook. apply is_tag_cases in Htag.
  unfold tag_priority in Htag. cbn [In] in Htag.
  repeat (destruct Htag as [<-|Htag]);
    try contradiction;
    (split; [reflexivity|]);
    unfold decode_tagged, variant_of_payload, dict_getitem;
    cbn [String.eqb Ascii.eqb Bool.eqb]; rewrite ?Hlook; reflexivity.
Qed.

(** Without a placeholder key the loop stops at the first key, in the
    order of the document, that is a tag. *)
Lemma scan_keys_first_tag (d : dict) (keys : list string) :
  no_placeholder_key d = true ->
  (forall k, In k keys -> In k (map fst d)) ->
  scan_keys d keys
  = match List.find is_tag keys with
    | Some tag => decode_tagged tag d
    | None => None
    end.
Proof.
  unfold no_placeholder_key. intros Hno.
  apply andb_prop in Hno as [H1 H2].
  apply negb_true_iff in H1, H2.
  induction keys as [|key rest IH]; intros Hsub; [reflexivity|].
  cbn [scan_keys List.find]. rewrite H1, H2.
  assert (Hrest : forall k, In k rest -> In k (map fst d))
    by (intros k Hk; apply Hsub; now right).
  destruct (is_tag key) eqn:Htag.
  - assert (Hin : In key (map fst d)) by (apply Hsub; now left).
    apply dict_contains_In, dict_contains_lookup in Hin as [payload Hp].
    destruct (tag_decode key d payload Htag Hp) as [Hpre Hdec].
    rewrite Hpre, Hdec. reflexivity.
  - rewrite (not_tag_decode key d Htag), IH by exact Hrest.
    destruct (String.prefix "$" key); reflexivity.
Qed.

End ScanFacts.

(** ** The codec *)

Section CodecFacts.
Context {T : ExtTypes} {L : ExtLib}.

Lemma deserialize_dict (d : dict) (depth : Z) :
  deserialize (PDict d) depth
  = match scan_keys d (map fst d) with
    | Some r => r
    | None => deserialize_items d depth
    end.
Proof. reflexivity. Qed.

(** X4. The argument [depth] of [deserialize] is only passed along: it
    never changes the result, and there is no depth limit. *)
Lemma deserialize_depth (v : pyval) :
  forall depth depth', deserialize v depth = deserialize v depth'.
Proof.
  induction v using pyval_ind; intros depth depth'; try reflexivity.
  - rewrite !deserialize_dict.
    destruct (scan_keys items (map fst items)); [reflexivity|].
    unfold deserialize_items. f_equal.
    generalize (depth + 1) (depth' + 1). intros n m.
    induction H as [|[k v] rest Hv Hrest IH]; [reflexivity|].
    cbn [mapM snd] in *. rewrite (Hv n m), IH. reflexivity.
  - cbn [deserialize]. f_equal.
    generalize (depth + 1) (depth' + 1). intros n m.
    induction H as [|v rest Hv Hrest IH]; [reflexivity|].
    cbn [mapM]. rewrite (Hv n m), IH. reflexivity.
Qed.


(** C2, amended. A document without [@embText] and [@embImage] decodes as
    the variant of the first of its keys, in its own key order, that is
    one of the nine tags, built from the payload of that key (and from
    [$options], 0 when absent, for [$regex]), the other keys ignored; when
    no key is a tag the document is read structurally. *)
Theorem deserialize_first_tag_in_document (d : dict) (depth : Z) :
  no_placeholder_key d = true ->
  match first_tag_in_document d with
  | Some tag =>
      exists payload,
        dict_lookup tag d = Some payload
        /\ deserialize (PDict d) depth
           = variant_of_payload tag payload (dict_get "$options" (PInt 0) d)
  | None => deserialize (PDict d) depth = deserialize_items d depth
  end.
Proof.
  intros Hno. rewrite deserialize_dict.
  rewrite (scan_keys_first_tag d (map fst d) Hno) by auto.
  unfold first_tag_in_document.
  destruct (List.find is_tag (map fst d)) as [tag|] eqn:Hfind; [|reflexivity].
  apply find_some in Hfind as [Hin Htag].
  apply dict_contains_In, dict_contains_lookup in Hin as [payload Hp].
  exists payload. split; [exact Hp|].
  destruct (tag_decode tag d payload Htag Hp) as [_ ->]. reflexivity.
Qed.

(** C3. A document with the key [@embText] is handed whole to
    [EmbText.from_json], whatever its other keys, and so never decodes as
    an [ObjectId]; one with [@embImage] and without [@embText] is handed
    whole to [EmbImage.from_json]. *)
Theorem placeholder_keys_decide (d : dict) (depth : Z) :
  (dict_contains "@embText" d = true ->
   deserialize (PDict d) depth
   = (e <- EmbText_from_json (PDict d) ;; Ok (PEmbText e))
   /\ forall o, deserialize (PDict d) depth <> Ok (PObjectId o))
  /\ (dict_contains "@embText" d = false ->
      dict_contains "@embImage" d = true ->
      deserialize (PDict d) depth
      = (e <- EmbImage_from_json (PDict d) ;; Ok (PEmbImage e))).
Proof.
  split.
  - intros H. rewrite deserialize_dict, (scan_keys_embtext d H).
    split; [reflexivity|].
    intros o. destruct (EmbText_from_json (PDict d)); cbn; congruence.
  - intros H1 H2. rewrite deserialize_dict, (scan_keys_embimage d H1 H2).
    reflexivity.
Qed.

End CodecFacts.

(** ** Unsupported values and plain values *)

Section StructuralFacts.
Context {T : ExtTypes} {L : ExtLib}.

Lemma serialize_dict (items : dict) :
  serialize (PDict items)
  = (items' <- mapM (fun kv : string * pyval =>
                       let (k, v) := kv in
                       v' <- serialize v ;; Ok (k, v')) items ;;
     Ok (PDict items')).
Proof. reflexivity. Qed.

Lemma serialize_list (items : list pyval) :
  serialize (PList items) = (items' <- mapM serialize items ;; Ok (PList items')).
Proof. reflexivity. Qed.

(** [serialize] returns exactly on the supported values, and otherwise
    raises for an unrecognized value inside. *)
Lemma serialize_supported (v : pyval) :
  if supported v
  then exists wire, serialize v = Ok wire
  else exists u, recognized u = false
                 /\ serialize v = Raise (unsupported_error u).
Proof.
  induction v using pyval_ind;
    try (cbn [supported]; eexists; reflexivity).
  - (* dict *)
    rewrite serialize_dict. cbn [supported].
    induction H as [|[k v] rest Hv Hrest IH]; [eexists; reflexivity|].
    cbn [mapM snd] in *.
    destruct (supported v).
    + destruct Hv as [w ->]. cbn [bind andb].
      match type of IH with
      | if ?c then _ else _ => destruct c
      end.
      * destruct IH as [ws Hws]. unfold bind in Hws |- *.
        destruct (mapM _ rest); [|discriminate]. eexists; reflexivity.
      * destruct IH as [u [Hu Hraise]]. exists u. split; [exact Hu|].
        unfold bind in Hraise |- *.
        destruct (mapM _ rest); [discriminate | exact Hraise].
    + destruct Hv as [u [Hu ->]]. exists u. split; [exact Hu|reflexivity].
  - (* list *)
    rewrite serialize_list. cbn [supported].
    induction H as [|v rest Hv Hrest IH]; [eexists; reflexivity|].
    cbn [mapM] in *.
    destruct (supported v).
    + destruct Hv as [w ->]. cbn [bind andb].
      match type of IH with
      | if ?c then _ else _ => destruct c
      end.
      * destruct IH as [ws Hws]. unfold bind in Hws |- *.
        destruct (mapM _ rest); [|discriminate]. eexists; reflexivity.
      * destruct IH as [u [Hu Hraise]]. exists u. split; [exact Hu|].
        unfold bind in Hraise |- *.
        destruct (mapM _ rest); [discriminate | exact Hraise].
    + destruct Hv as [u [Hu ->]]. exists u. split; [exact Hu|reflexivity].
  - (* Code *)
    cbn [supported serialize isinstance_scalar BSON_SERIALIZERS].
    destruct Code_isinstance_str; eexists; reflexivity.
  - (* any other object *)
    cbn [supported]. exists (PObject cls). split; reflexivity.
Qed.

(** C4. [serialize] raises the unsupported-type [TypeError] on a value of
    a class it does not know, at the top or anywhere inside documents and
    sequences (nothing is skipped or dropped: the call raises and returns
    no wire value), and [deserialize] raises it on a value that is neither
    a scalar nor a mapping nor a sequence. *)
Theorem unsupported_type_raises :
  (forall v, recognized v = false ->
             serialize v = Raise (unsupported_error v))
  /\ (forall v, supported v = false ->
                exists u, recognized u = false
                          /\ serialize v = Raise (unsupported_error u))
  /\ (forall v depth,
        is_wire_shape v = false ->
        deserialize v depth
        = Raise (TypeError ("Unsupported BSON type during deserialization: "
                            ++ type_repr v))).
Proof.
  split; [|split].
  - intros v Hv. destruct v; try discriminate. reflexivity.
  - intros v Hv. pose proof (serialize_supported v) as H.
    rewrite Hv in H. exact H.
  - intros v depth Hv.
    destruct v; try discriminate; cbn [is_wire_shape isinstance_scalar] in Hv;
      cbn [deserialize isinstance_scalar]; rewrite ?Hv; reflexivity.
Qed.

Lemma unreserved_keys_scan (d : dict) :
  forallb (fun kv : string * pyval => negb (is_reserved (fst kv))) d = true ->
  scan_keys d (map fst d) = None.
Proof.
  intros Hall.
  assert (Hkeys : forall k, In k (map fst d) -> is_reserved k = false).
  { intros k Hk. apply in_map_iff in Hk as [[k' v] [<- Hin]].
    rewrite forallb_forall in Hall. apply Hall in Hin.
    now apply negb_true_iff in Hin. }
  assert (Hno : no_placeholder_key d = true).
  { unfold no_placeholder_key. apply andb_true_intro. split.
    - apply negb_true_iff. destruct (dict_contains "@embText" d) eqn:E; auto.
      apply dict_contains_In, Hkeys in E. discriminate.
    - apply negb_true_iff. destruct (dict_contains "@embImage" d) eqn:E; auto.
      apply dict_contains_In, Hkeys in E. discriminate. }
  rewrite (scan_keys_first_tag d (map fst d) Hno) by auto.
  destruct (List.find is_tag (map fst d)) as [tag|] eqn:Hfind; [|reflexivity].
  apply find_some in Hfind as [Hin Htag]. apply Hkeys in Hin.
  unfold is_reserved in Hin. rewrite Htag in Hin.
  rewrite !orb_true_r in Hin. discriminate.
Qed.

(** A plain value without reserved keys is its own wire form and decodes
    to itself. *)
Lemma plain_tag_free_round_trip (x : pyval) :
  plain x = true -> tag_free x = true ->
  serialize x = Ok x /\ forall depth, deserialize x depth = Ok x.
Proof.
  induction x using pyval_ind; try discriminate;
    try (intros _ _; split; [|intros depth]; reflexivity).
  - (* dict *)
    intros Hplain Hfree. cbn [plain tag_free] in Hplain, Hfree.
    assert (Hkeys : forallb (fun kv : string * pyval =>
                               negb (is_reserved (fst kv))) items = true).
    { clear H Hplain. induction items as [|[k v] rest IH]; [reflexivity|].
      cbn [forallb fst]. apply andb_prop in Hfree as [Hkv Hrest].
      apply andb_prop in Hkv as [Hk _]. rewrite Hk. now apply IH. }
    assert (Hitems :
      mapM (fun kv : string * pyval =>
              let (k, v) := kv in v' <- serialize v ;; Ok (k, v')) items
      = Ok items
      /\ forall depth,
           mapM (fun kv : string * pyval =>
                   let (k, v) := kv in
                   v' <- deserialize v depth ;; Ok (k, v')) items
           = Ok items).
    { clear Hkeys. induction H as [|[k v] rest Hv Hrest IH];
        [split; reflexivity|].
      cbn [snd] in Hv.
      apply andb_prop in Hplain as [Hpv Hprest].
      apply andb_prop in Hfree as [Hfv Hfrest].
      apply andb_prop in Hfv as [_ Hfv].
      destruct (Hv Hpv Hfv) as [Hs Hd].
      destruct (IH Hprest Hfrest) as [IHs IHd].
      split; [|intros depth]; cbn [mapM].
      - rewrite Hs. cbn [bind]. rewrite IHs. reflexivity.
      - rewrite Hd. cbn [bind]. rewrite IHd. reflexivity. }
    destruct Hitems as [Hs Hd]. split.
    + rewrite serialize_dict, Hs. reflexivity.
    + intros depth. rewrite deserialize_dict, (unreserved_keys_scan items Hkeys).
      unfold deserialize_items. rewrite Hd. reflexivity.
  - (* list *)
    intros Hplain Hfree. cbn [plain tag_free] in Hplain, Hfree.
    assert (Hitems :
      mapM serialize items = Ok items
      /\ forall depth,
           mapM (fun item => deserialize item depth) items = Ok items).
    { induction H as [|v rest Hv Hrest IH]; [split; reflexivity|].
      apply andb_prop in Hplain as [Hpv Hprest].
      apply andb_prop in Hfree as [Hfv Hfrest].
      destruct (Hv Hpv Hfv) as [Hs Hd].
      destruct (IH Hprest Hfrest) as [IHs IHd].
      split; [|intros depth]; cbn [mapM].
      - rewrite Hs, IHs. reflexivity.
      - rewrite Hd, IHd. reflexivity. }
    destruct Hitems as [Hs Hd]. split.
    + rewrite serialize_list, Hs. reflexivity.
    + intros depth. cbn [deserialize]. rewrite Hd. reflexivity.
Qed.

(** C6, amended. A document or sequence built only of [None], booleans,
    integers, floats, strings, documents and sequences, in which no
    document has a reserved key ([@embText], [@embImage] or one of the
    nine tags), serializes to itself and deserializes to itself, keys in
    their order. *)
Theorem plain_round_trip (x : pyval) (depth : Z) :
  is_container x = true ->
  plain x = true ->
  tag_free x = true ->
  exists wire, serialize x = Ok wire /\ wire = x /\ deserialize wire depth = Ok x.
Proof.
  intros _ Hplain Hfree.
  destruct (plain_tag_free_round_trip x Hplain Hfree) as [Hs Hd].
  exists x. auto.
Qed.

End StructuralFacts.

(** ** Responses *)

Section ResponseFacts.
Context {T : ExtTypes} {L : ExtLib}.

Lemma raise_for_status_failed (r : response) :
  failed r -> raise_for_status r = Raise (HTTPError (status_code r)).
Proof.
  unfold failed, raise_for_status. intros [H1 H2].
  apply Z.leb_le in H1. apply Z.ltb_lt in H2. rewrite H1, H2. reflexivity.
Qed.

Lemma raise_for_status_passed (r : response) :
  ~ failed r -> raise_for_status r = Ok tt.
Proof.
  unfold failed, raise_for_status. intros H.
  destruct (Z.leb_spec 400 (status_code r));
    destruct (Z.ltb_spec (status_code r) 600); try reflexivity; lia.
Qed.

(** A success body goes through [deserialize]. *)
Lemma handle_response_success (r : response) (j v : pyval) :
  ~ failed r -> json r = Some j -> deserialize j 0 = Ok v ->
  handle_response r = Ok v.
Proof.
  intros Hok Hj Hd. unfold handle_response, response_json.
  rewrite (raise_for_status_passed r Hok), Hj. cbn [bind]. rewrite Hd.
  reflexivity.
Qed.

(** On a failed response only the classifier runs. *)
Lemma handle_response_failed (r : response) :
  failed r ->
  handle_response r
  = try_except
      (error_data <- response_json r ;;
       status <- py_get error_data "status" (PStr "error") ;;
       code <- py_get error_data "code" (PInt 500) ;;
       message <- py_get error_data "message"
                    (PStr "An unknown error occurred.") ;;
       if py_eq_int code 401 then Raise (AuthenticationError code message)
       else
         ge <- py_ge_int code 400 ;;
         lt <- (if ge then py_lt_int code 500 else Ok false) ;;
         if ge && lt then Raise (ClientRequestError code message)
         else Raise (ServerError code message))
      is_ValueError
      (fun _ => Raise (APIClientError (PInt (status_code r))
                                      (PStr (text r)))).
Proof.
  intros H. unfold handle_response.
  rewrite (raise_for_status_failed r H). reflexivity.
Qed.

Lemma handle_response_classify (r : response) (d : dict) (code : Z) :
  failed r ->
  json r = Some (PDict d) ->
  dict_lookup "code" d = Some (PInt code) ->
  handle_response r = Raise (classify code (error_message d)).
Proof.
  intros Hf Hj Hc. rewrite (handle_response_failed r Hf).
  assert (Hcode : dict_get "code" (PInt 500) d = PInt code)
    by (unfold dict_get; rewrite Hc; reflexivity).
  unfold response_json, classify, error_message. rewrite Hj.
  cbn [bind py_get]. rewrite Hcode.
  unfold py_eq_int, py_ge_int, py_lt_int, compare_int.
  destruct (Z.eqb_spec code 401) as [->|Hne]; [reflexivity|].
  destruct (Z.compare_spec code 401); [contradiction| |];
    destruct (Z.leb_spec 400 code); destruct (Z.ltb_spec code 500);
    destruct (Z.compare_spec code 400); destruct (Z.compare_spec code 500);
    try lia; reflexivity.
Qed.

Lemma number_comparisons (x : pyval) (n : Z) :
  is_number x = true ->
  (exists b, py_ge_int x n = Ok b) /\ (exists b, py_lt_int x n = Ok b).
Proof.
  unfold py_ge_int, py_lt_int.
  destruct x; try discriminate; intros _; cbn [compare_int].
  - destruct (Z.b2z b ?= n); split; eexists; reflexivity.
  - destruct (z ?= n); split; eexists; reflexivity.
  - destruct (float_compare_int f n) as [[| |]|]; split; eexists; reflexivity.
Qed.

(** A body the classifier can read always ends in an error of the
    taxonomy. *)
Lemma classifiable_stays_in_taxonomy (r : response) :
  failed r ->
  classifiable r ->
  exists e, handle_response r = Raise e /\ is_APIClientError e = true.
Proof.
  intros Hf Hc. rewrite (handle_response_failed r Hf). unfold response_json.
  destruct Hc as [Hn | [d [Hd Hnum]]].
  - rewrite Hn. eexists. split; reflexivity.
  - rewrite Hd. cbn [bind py_get]. fold (error_code d).
    destruct (number_comparisons (error_code d) 400 Hnum) as [[ge Hge] _].
    destruct (number_comparisons (error_code d) 500 Hnum) as [_ [lt Hlt]].
    rewrite Hge. cbn [bind].
    destruct (py_eq_int (error_code d) 401);
      [eexists; split; reflexivity|].
    destruct ge; [rewrite Hlt|]; cbn [bind];
      [destruct lt|]; eexists; split; reflexivity.
Qed.

(** C5, amended. On a failed response whose body is not JSON, or is a JSON
    object whose [code] is absent or a number, the classifier raises one
    error of the taxonomy.  For an integer [code] it is
    [AuthenticationError] for 401, [ClientRequestError] for any other code
    from 400 to 499, and [ServerError] for every other code, each with the
    code and the message of the body; when the body is not JSON it is the
    generic [APIClientError] with the HTTP status and the raw text. *)
Theorem failed_response_classification (r : response) :
  failed r ->
  (forall d code,
      json r = Some (PDict d) ->
      dict_lookup "code" d = Some (PInt code) ->
      (code = 401 ->
       handle_response r
       = Raise (AuthenticationError (PInt code) (error_message d)))
      /\ (400 <= code < 500 -> code <> 401 ->
          handle_response r
          = Raise (ClientRequestError (PInt code) (error_message d)))
      /\ (code < 400 \/ 500 <= code ->
          handle_response r
          = Raise (ServerError (PInt code) (error_message d))))
  /\ (json r = None ->
      handle_response r
      = Raise (APIClientError (PInt (status_code r)) (PStr (text r))))
  /\ (classifiable r ->
      exists e, handle_response r = Raise e /\ is_APIClientError e = true).
Proof.
  intros Hf. split; [|split].
  - intros d code Hj Hc.
    rewrite (handle_response_classify r d code Hf Hj Hc). unfold classify.
    repeat split.
    + intros ->. reflexivity.
    + intros H Hne. destruct (Z.eqb_spec code 401); [contradiction|].
      destruct (Z.leb_spec 400 code); destruct (Z.ltb_spec code 500);
        try lia; reflexivity.
    + intros H. destruct (Z.eqb_spec code 401); [lia|].
      destruct (Z.leb_spec 400 code); destruct (Z.ltb_spec code 500);
        try lia; reflexivity.
  - intros Hj. rewrite (handle_response_failed r Hf).
    unfold response_json. rewrite Hj. reflexivity.
  - exact (classifiable_stays_in_taxonomy r Hf).
Qed.

(** A failed response whose body is JSON but no object leaves the
    classifier with the [AttributeError] of its first [.get]. *)
Lemma failed_response_not_an_object (r : response) (items : list pyval) :
  failed r ->
  json r = Some (PList items) ->
  handle_response r
  = Raise (AttributeError (type_repr (PList items) ++ " has no attribute 'get'")).
Proof.
  intros Hf Hj. rewrite (handle_response_failed r Hf).
  unfold response_json. rewrite Hj. reflexivity.
Qed.

End ResponseFacts.

(** ** The operations *)

Section FacadeFacts.
Context {T : ExtTypes} {L : ExtLib}.
Variable requests_send : request -> result response.
Variable self : Collection.

Lemma is_not_None_false (v : pyval) : is_not_None v = false <-> v = PNone.
Proof. destruct v; cbn; split; congruence. Qed.

(** C7, amended. [insert], [update], [delete] and [find] build their body
    from the serialized documents, filter and update, and build none when
    serializing raises; [find] sends its projection, sort, limit and skip,
    and [query] its projection, as they are given; all five return what
    [deserialize] makes of the success body, [find] and [query] after
    taking [docs] and [matches] from it. *)
Theorem facade_codec_use :
  (forall documents,
      (forall rq, insert_request self documents = Ok rq ->
                  exists wires, mapM serialize documents = Ok wires
                                /\ request_data rq = [("documents", PList wires)])
      /\ (forall e, mapM serialize documents = Raise e ->
                    insert requests_send self documents = Raise e))
  /\ (forall filter update_doc upsert,
        (forall rq, update_request self filter update_doc upsert = Ok rq ->
                    exists wf wu,
                      serialize filter = Ok wf
                      /\ serialize update_doc = Ok wu
                      /\ request_data rq = [("filter", wf); ("update", wu);
                                            ("upsert", upsert)])
        /\ (forall e, serialize filter = Raise e ->
                      update requests_send self filter update_doc upsert
                      = Raise e))
  /\ (forall filter,
        (forall rq, delete_request self filter = Ok rq ->
                    exists wf,
                      serialize filter = Ok wf
                      /\ request_data rq = [("filter", wf)])
        /\ (forall e, serialize filter = Raise e ->
                      delete requests_send self filter = Raise e))
  /\ (forall filter projection sort limit skip,
        (forall rq,
            find_request self filter projection sort limit skip = Ok rq ->
            exists wf,
              serialize filter = Ok wf
              /\ request_data rq = [("filter", wf);
                                    ("projection", projection);
                                    ("sort", sort);
                                    ("limit", limit);
                                    ("skip", skip)])
        /\ (forall e, serialize filter = Raise e ->
                      find requests_send self filter projection sort limit skip
                      = Raise e))
  /\ (forall text filter projection emb_model top_k include_values,
        projection <> PNone ->
        sends_as_given
          (query_request self text filter projection emb_model top_k
                         include_values)
          "projection" projection)
  /\ (forall r j v,
        ~ failed r -> json r = Some j -> deserialize j 0 = Ok v ->
        (forall documents rq,
            insert_request self documents = Ok rq ->
            requests_send rq = Ok r ->
            insert requests_send self documents = Ok v)
        /\ (forall filter update_doc upsert rq,
               update_request self filter update_doc upsert = Ok rq ->
               requests_send rq = Ok r ->
               update requests_send self filter update_doc upsert = Ok v)
        /\ (forall filter rq,
               delete_request self filter = Ok rq ->
               requests_send rq = Ok r ->
               delete requests_send self filter = Ok v)
        /\ (forall filter projection sort limit skip rq,
               find_request self filter projection sort limit skip = Ok rq ->
               requests_send rq = Ok r ->
               find requests_send self filter projection sort limit skip
               = py_get v "docs" (PList []))
        /\ (forall text filter projection emb_model top_k include_values,
               requests_send
                 (query_request self text filter projection emb_model top_k
                                include_values) = Ok r ->
               query requests_send self text filter projection emb_model
                     top_k include_values
               = py_get v "matches" (PList []))).
Proof.
  split; [|split; [|split; [|split; [|split]]]].
  - intros documents. split.
    + intros rq. unfold insert_request.
      destruct (mapM serialize documents) as [wires|e]; [|discriminate].
      cbn [bind]. intros [= <-]. exists wires. split; reflexivity.
    + intros e He. unfold insert, insert_request. rewrite He. reflexivity.
  - intros filter update_doc upsert. split.
    + intros rq. unfold update_request.
      destruct (serialize filter) as [wf|e] eqn:Hf; [|discriminate].
      destruct (serialize update_doc) as [wu|e] eqn:Hu; [|discriminate].
      cbn [bind]. intros [= <-]. exists wf, wu. repeat split.
    + intros e He. unfold update, update_request. rewrite He. reflexivity.
  - intros filter. split.
    + intros rq. unfold delete_request.
      destruct (serialize filter) as [wf|e] eqn:Hf; [|discriminate].
      cbn [bind]. intros [= <-]. exists wf. split; reflexivity.
    + intros e He. unfold delete, delete_request. rewrite He. reflexivity.
  - intros filter projection sort limit skip. split.
    + intros rq. unfold find_request.
      destruct (serialize filter) as [wf|e] eqn:Hf; [|discriminate].
      cbn [bind]. intros [= <-]. exists wf. split; reflexivity.
    + intros e He. unfold find, find_request. rewrite He. reflexivity.
  - intros text filter projection emb_model top_k include_values Hp.
    unfold sends_as_given, request_data, query_request, query_data.
    cbn [rq_json].
    assert (Hnn : is_not_None projection = true).
    { destruct (is_not_None projection) eqn:E; [reflexivity|].
      apply is_not_None_false in E. contradiction. }
    rewrite Hnn.
    destruct (is_not_None filter), (is_not_None emb_model),
      (is_not_None top_k), (is_not_None include_values); reflexivity.
  - intros r j v Hok Hj Hd.
    pose proof (handle_response_success r j v Hok Hj Hd) as Hr.
    repeat split.
    + intros documents rq Hrq Hs. unfold insert.
      rewrite Hrq. cbn [bind]. rewrite Hs. exact Hr.
    + intros filter update_doc upsert rq Hrq Hs. unfold update.
      rewrite Hrq. cbn [bind]. rewrite Hs. exact Hr.
    + intros filter rq Hrq Hs. unfold delete.
      rewrite Hrq. cbn [bind]. rewrite Hs. exact Hr.
    + intros filter projection sort limit skip rq Hrq Hs. unfold find.
      rewrite Hrq. cbn [bind]. rewrite Hs. cbn [bind]. rewrite Hr.
      reflexivity.
    + intros text filter projection emb_model top_k include_values Hs.
      unfold query. rewrite Hs. cbn [bind]. rewrite Hr. reflexivity.
Qed.


(** C9. The body of [query] binds [query], and binds each of [filter],
    [projection], [emb_model], [top_k] and [include_values] exactly when
    it is not [None]: an unset parameter has no key in the body, and no
    optional key is bound to [None]. *)
Theorem query_omits_unset_parameters
    (text filter projection emb_model top_k include_values : pyval) :
  let data := query_data text filter projection emb_model top_k
                         include_values in
  rq_json (query_request self text filter projection emb_model top_k
                         include_values) = Some (PDict data)
  /\ dict_lookup "query" data = Some text
  /\ dict_lookup "filter" data
     = (if is_not_None filter then Some filter else None)
  /\ dict_lookup "projection" data
     = (if is_not_None projection then Some projection else None)
  /\ dict_lookup "emb_model" data
     = (if is_not_None emb_model then Some emb_model else None)
  /\ dict_lookup "top_k" data
     = (if is_not_None top_k then Some top_k else None)
  /\ dict_lookup "include_values" data
     = (if is_not_None include_values then Some include_values else None)
  /\ dict_contains "top_k" data = is_not_None top_k
  /\ (forall key, dict_lookup key data = Some PNone -> key = "query").
Proof.
  cbv zeta. unfold query_request, query_data. cbn [rq_json].
  destruct (is_not_None filter) eqn:E1, (is_not_None projection) eqn:E2,
    (is_not_None emb_model) eqn:E3, (is_not_None top_k) eqn:E4,
    (is_not_None include_values) eqn:E5;
    (repeat split; try reflexivity);
    intros key; cbn [dict_setitem dict_lookup String.eqb Ascii.eqb Bool.eqb];
    repeat match goal with
           | |- context [String.eqb key ?k] =>
               destruct (String.eqb_spec key k); [subst key|]
           end;
    intros [= H]; try reflexivity; subst; discriminate.
Qed.

(** C10. When the deserialized success body is a dictionary without the
    key [docs], [find] returns the empty list; without the key [matches],
    [query] returns the empty list. *)
Theorem missing_result_key_gives_empty_list (r : response) (j : pyval)
    (d : dict) :
  ~ failed r ->
  json r = Some j ->
  deserialize j 0 = Ok (PDict d) ->
  (forall filter projection sort limit skip rq,
      find_request self filter projection sort limit skip = Ok rq ->
      requests_send rq = Ok r ->
      dict_lookup "docs" d = None ->
      find requests_send self filter projection sort limit skip
      = Ok (PList []))
  /\ (forall text filter projection emb_model top_k include_values,
        requests_send
          (query_request self text filter projection emb_model top_k
                         include_values) = Ok r ->
        dict_lookup "matches" d = None ->
        query requests_send self text filter projection emb_model top_k
              include_values
        = Ok (PList [])).
Proof.
  intros Hok Hj Hd.
  pose proof (handle_response_success r j (PDict d) Hok Hj Hd) as Hr.
  split.
  - intros filter projection sort limit skip rq Hrq Hs Hmiss.
    unfold find. rewrite Hrq. cbn [bind]. rewrite Hs. cbn [bind].
    rewrite Hr. cbn [bind py_get]. unfold dict_get. rewrite Hmiss.
    reflexivity.
  - intros text filter projection emb_model top_k include_values Hs Hmiss.
    unfold query. rewrite Hs. cbn [bind]. rewrite Hr. cbn [bind py_get].
    unfold dict_get. rewrite Hmiss. reflexivity.
Qed.

End FacadeFacts.

(* ================================================================== *)
(** * The properties on the small instance *)
(* ================================================================== *)

Module Examples.

Import Ref.

(** The small instance prints and parses inversely. *)
Lemma ref_laws : @ExtLaws types lib.
Proof.
  constructor; try (intros; reflexivity).
  - intros [p f]. reflexivity.
  - intros [t i]. reflexivity.
  - intros e. eexists. split; reflexivity.
  - intros e. eexists. repeat split; reflexivity.
Qed.

Lemma ref_laws_plain_code : @ExtLaws types lib_plain_code.
Proof.
  constructor; try (intros; reflexivity).
  - intros [p f]. reflexivity.
  - intros [t i]. reflexivity.
  - intros e. eexists. split; reflexivity.
  - intros e. eexists. repeat split; reflexivity.
Qed.



(** The bytes come back, the subtype is the default of [Binary(b)]: the
    comparison by bytes is the one that holds. *)
Example binary_round_trip_run :
  (wire <- serialize two_bytes ;; deserialize wire 0)
  = Ok (PBinary ([Byte.x01; Byte.xff], 0)).
Proof. reflexivity. Qed.

(** The upper-case spelling of the payload decodes to the same bytes. *)
Example binary_upper_case_run :
  deserialize (PDict [("$binary", PStr "01FF")]) 0
  = deserialize (PDict [("$binary", PStr "01ff")]) 0.
Proof. reflexivity. Qed.

(** A [Code] travels as itself when [Code] derives from [str], and under
    [$code] when it does not. *)
Example code_serialize_run :
  serialize (PCode "f()") = Ok (PCode "f()")
  /\ @serialize _ lib_plain_code (PCode "f()")
     = Ok (PDict [("$code", PStr "f()")]).
Proof. split; reflexivity. Qed.

(** C2 as stated fails: in a document whose keys are [$maxKey] then
    [$minKey], the fixed order picks [$minKey], whose variant is [MinKey],
    and [deserialize] returns [MaxKey]. *)
Lemma fixed_priority_counterexample :
  no_placeholder_key max_before_min = true
  /\ first_tag_by_priority max_before_min = Some "$minKey"
  /\ dict_lookup "$minKey" max_before_min = Some (PInt 1)
  /\ variant_of_payload "$minKey" (PInt 1)
       (dict_get "$options" (PInt 0) max_before_min) = Ok PMinKey
  /\ deserialize (PDict max_before_min) 0 = Ok PMaxKey
  /\ ~ @decodes_by_fixed_priority types lib.
Proof.
  repeat (split; [reflexivity|]).
  intros H.
  specialize (H max_before_min 0 "$minKey" (PInt 1) eq_refl eq_refl eq_refl).
  cbv in H. discriminate H.
Qed.

Lemma deserialize_first_tag_in_document_witness :
  no_placeholder_key date_before_oid = true
  /\ exists payload,
       dict_lookup "$date" date_before_oid = Some payload
       /\ deserialize (PDict date_before_oid) 0
          = variant_of_payload "$date" payload
              (dict_get "$options" (PInt 0) date_before_oid).
Proof.
  split; [reflexivity|].
  exact (deserialize_first_tag_in_document date_before_oid 0 eq_refl).
Defined.

Lemma placeholder_keys_decide_witness :
  dict_contains "@embText" text_and_oid = true
  /\ deserialize (PDict text_and_oid) 0
     = (e <- EmbText_from_json (PDict text_and_oid) ;; Ok (PEmbText e))
  /\ forall o, deserialize (PDict text_and_oid) 0 <> Ok (PObjectId o).
Proof.
  split; [reflexivity|].
  apply (proj1 (placeholder_keys_decide text_and_oid 0)). reflexivity.
Defined.

Example text_and_oid_run :
  deserialize (PDict text_and_oid) 0 = Ok (PEmbText "hello").
Proof. reflexivity. Qed.

Lemma unsupported_type_raises_witness :
  supported list_with_bytes = false
  /\ exists u, recognized u = false
               /\ serialize list_with_bytes = Raise (unsupported_error u).
Proof.
  split; [reflexivity|].
  apply (proj1 (proj2 unsupported_type_raises) list_with_bytes). reflexivity.
Defined.

Example unsupported_type_run :
  serialize list_with_bytes
  = Raise (TypeError "Unsupported BSON type: <class 'bytes'>")
  /\ deserialize (PObjectId "0123456789abcdef01234567") 0
     = Raise (TypeError "Unsupported BSON type during deserialization: <class 'bson.objectid.ObjectId'>").
Proof. split; reflexivity. Qed.

Lemma failed_response_classification_witness :
  failed not_found
  /\ handle_response not_found
     = Raise (ClientRequestError (PInt 404) (PStr "no such collection")).
Proof.
  assert (Hf : failed not_found) by (unfold failed; cbn; lia).
  split; [exact Hf|].
  apply (proj1 (proj2 (proj1 (failed_response_classification not_found Hf)
                         _ 404 eq_refl eq_refl)));
    lia.
Defined.

(** C5 as stated fails: a failed response whose body is the JSON list
    [[]] leaves the classifier with the [AttributeError] of [.get], which
    is none of the errors of the module. *)
Lemma classification_counterexample :
  failed Samples.error_list_body
  /\ handle_response Samples.error_list_body
     = Raise (AttributeError "<class 'list'> has no attribute 'get'")
  /\ ~ @every_failed_response_is_classified types lib.
Proof.
  assert (Hf : failed Samples.error_list_body) by (unfold failed; cbn; lia).
  split; [exact Hf|]. split; [reflexivity|].
  intros H. destruct (H Samples.error_list_body Hf) as [e [He Ha]].
  cbv in He. injection He as <-. discriminate Ha.
Qed.

(** A code that is a string is compared with 401 and then ordered against
    400, which raises a [TypeError]. *)
Example text_code_run :
  handle_response Samples.error_text_code
  = Raise (TypeError "'>=' not supported between instances of <class 'str'> and 'int'").
Proof. reflexivity. Qed.

Example classification_table_run :
  handle_response {| status_code := 401; text := "";
                     json := Some (PDict [("code", PInt 401)]) |}
  = Raise (AuthenticationError (PInt 401) (PStr "An unknown error occurred."))
  /\ handle_response {| status_code := 500; text := "";
                        json := Some (PDict [("code", PInt 500)]) |}
     = Raise (ServerError (PInt 500) (PStr "An unknown error occurred."))
  /\ handle_response {| status_code := 502; text := "<html>Bad Gateway</html>";
                        json := None |}
     = Raise (APIClientError (PInt 502) (PStr "<html>Bad Gateway</html>")).
Proof. repeat split; reflexivity. Qed.

(** C6 as stated fails: the plain document [{"$minKey": 1}] serializes to
    itself and deserializes to [MinKey]. *)
Lemma plain_round_trip_counterexample :
  is_container min_key_document = true
  /\ plain min_key_document = true
  /\ serialize min_key_document = Ok min_key_document
  /\ deserialize min_key_document 0 = Ok PMinKey
  /\ ~ @plain_containers_round_trip types lib.
Proof.
  repeat (split; [reflexivity|]).
  intros H.
  destruct (H min_key_document 0 eq_refl eq_refl) as [wire [Hs Hd]].
  cbv in Hs. injection Hs as <-. cbv in Hd. discriminate Hd.
Qed.

Lemma plain_round_trip_witness :
  is_container operator_document = true
  /\ plain operator_document = true
  /\ tag_free operator_document = true
  /\ exists wire, serialize operator_document = Ok wire
                  /\ wire = operator_document
                  /\ deserialize wire 0 = Ok operator_document.
Proof.
  repeat (split; [reflexivity|]).
  apply (plain_round_trip operator_document 0); reflexivity.
Defined.

(** C7 as stated fails: [find] puts its projection in the body as it is
    given, not as [serialize] writes it. *)
Lemma find_projection_counterexample :
  serialize min_key_projection
  = Ok (PDict [("a", PDict [("$minKey", PInt 1)])])
  /\ (exists rq,
        find_request coll (PDict []) min_key_projection PNone PNone PNone
        = Ok rq
        /\ dict_lookup "projection" (request_data rq)
           = Some min_key_projection)
  /\ ~ @find_serializes_every_input types lib.
Proof.
  split; [reflexivity|]. split; [eexists; split; reflexivity|].
  intros H.
  destruct (H coll (PDict []) min_key_projection PNone PNone PNone _ eq_refl)
    as [_ [[wire [Hs Hl]] _]].
  cbv in Hs. injection Hs as <-. cbv in Hl. discriminate Hl.
Qed.

Lemma facade_codec_use_witness :
  exists rq wf,
    find_request coll (PDict [("n", PMaxKey)]) min_key_projection
                 PNone (PInt 10) PNone = Ok rq
    /\ serialize (PDict [("n", PMaxKey)]) = Ok wf
    /\ request_data rq = [("filter", wf);
                          ("projection", min_key_projection);
                          ("sort", PNone);
                          ("limit", PInt 10);
                          ("skip", PNone)].
Proof.
  eexists.
  destruct (proj1 (proj1 (proj2 (proj2 (proj2
              (facade_codec_use (answer ok_empty) coll))))
              (PDict [("n", PMaxKey)]) min_key_projection
              PNone (PInt 10) PNone)
              _ eq_refl) as [wf [Hs Hb]].
  exists wf. split; [reflexivity|]. split; [exact Hs | exact Hb].
Defined.


Example drop_error_run :
  drop (answer not_found) coll
  = Raise (ClientRequestError (PInt 404) (PStr "no such collection")).
Proof. reflexivity. Qed.

Lemma query_omits_unset_parameters_witness :
  query_data (PStr "hello") PNone PNone PNone PNone PNone
  = [("query", PStr "hello")]
  /\ dict_contains "top_k"
       (query_data (PStr "hello") PNone PNone PNone PNone PNone) = false.
Proof.
  split; [reflexivity|].
  apply (proj1 (proj2 (proj2 (proj2 (proj2 (proj2 (proj2 (proj2
           (query_omits_unset_parameters coll (PStr "hello")
              PNone PNone PNone PNone PNone))))))))).
Defined.

Lemma missing_result_key_gives_empty_list_witness :
  ~ failed ok_empty
  /\ find (answer ok_empty) coll (PDict []) PNone PNone PNone PNone
     = Ok (PList [])
  /\ query (answer ok_empty) coll (PStr "hello")
           PNone PNone PNone PNone PNone
     = Ok (PList []).
Proof.
  assert (Hok : ~ failed ok_empty) by (unfold failed; cbn; lia).
  split; [exact Hok|].
  destruct (missing_result_key_gives_empty_list (answer ok_empty)
              coll ok_empty (PDict []) [] Hok eq_refl eq_refl)
    as [Hfind Hquery].
  split.
  - apply (Hfind (PDict []) PNone PNone PNone PNone _ eq_refl eq_refl eq_refl).
  - apply (Hquery (PStr "hello") PNone PNone PNone PNone PNone
             eq_refl eq_refl).
Defined.

End Examples.

(* ================================================================== *)
(** * Further properties of the codec *)
(* ================================================================== *)

Section MoreCodecFacts.
Context {T : ExtTypes} {L : ExtLib}.

(** X1. [serialize] returns a wire value exactly on the supported values;
    the only exception it ever raises is the unsupported-type [TypeError],
    for a value of an unknown class. *)
Theorem serialize_returns_iff_supported (v : pyval) :
  ((exists wire, serialize v = Ok wire) <-> supported v = true)
  /\ (forall e, serialize v = Raise e ->
                exists u, recognized u = false /\ e = unsupported_error u).
Proof.
  pose proof (serialize_supported v) as H.
  destruct (supported v).
  - destruct H as [wire Hw]. split.
    + split; [reflexivity | intros _; eauto].
    + intros e He. congruence.
  - destruct H as [u [Hu Hr]]. split.
    + split; [intros [wire Hw]; congruence | discriminate].
    + intros e He. exists u. split; [exact Hu | congruence].
Qed.

Lemma mapM_length {A B : Type} (f : A -> result B) (l : list A) (l' : list B) :
  mapM f l = Ok l' -> List.length l' = List.length l.
Proof.
  revert l'. induction l as [|x rest IH]; intros l'; cbn [mapM].
  - intros [= <-]. reflexivity.
  - destruct (f x); [|discriminate].
    destruct (mapM f rest) as [ys|]; [|discriminate].
    intros [= <-]. cbn. f_equal. now apply IH.
Qed.

Lemma mapM_Forall2 {A B : Type} (f : A -> result B) (l : list A) (l' : list B) :
  mapM f l = Ok l' -> Forall2 (fun x y => f x = Ok y) l l'.
Proof.
  revert l'. induction l as [|x rest IH]; intros l'; cbn [mapM].
  - intros [= <-]. constructor.
  - destruct (f x) as [y|] eqn:Hx; [|discriminate].
    destruct (mapM f rest) as [ys|]; [|discriminate].
    intros [= <-]. constructor; [exact Hx | now apply IH].
Qed.

Lemma mapM_keys (f : pyval -> result pyval) (d d' : dict) :
  mapM (fun kv : string * pyval =>
          let (k, v) := kv in v' <- f v ;; Ok (k, v')) d = Ok d' ->
  map fst d' = map fst d.
Proof.
  revert d'. induction d as [|[k v] rest IH]; intros d'; cbn [mapM].
  - intros [= <-]. reflexivity.
  - destruct (f v); cbn [bind]; [|discriminate].
    destruct (mapM _ rest) as [ys|]; [|discriminate].
    intros [= <-]. cbn. f_equal. now apply IH.
Qed.

(** X2. The wire form of a document is a document with the same keys in
    the same order, and the wire form of a sequence is a sequence of the
    same length: [serialize] adds, drops and reorders nothing. *)
Theorem serialize_keeps_shape :
  (forall items wire,
      serialize (PDict items) = Ok wire ->
      exists items', wire = PDict items' /\ map fst items' = map fst items)
  /\ (forall items wire,
        serialize (PList items) = Ok wire ->
        exists items', wire = PList items'
                       /\ List.length items' = List.length items
                       /\ Forall2 (fun x w => serialize x = Ok w) items items').
Proof.
  split; intros items wire.
  - rewrite serialize_dict.
    destruct (mapM _ items) as [items'|] eqn:Hm; cbn [bind]; [|discriminate].
    intros [= <-]. exists items'. split; [reflexivity|].
    exact (mapM_keys serialize items items' Hm).
  - rewrite serialize_list.
    destruct (mapM serialize items) as [items'|] eqn:Hm; cbn [bind];
      [|discriminate].
    intros [= <-]. exists items'. split; [reflexivity|]. split.
    + exact (mapM_length serialize items items' Hm).
    + exact (mapM_Forall2 serialize items items' Hm).
Qed.

(** X3. A value built only of [None], booleans, integers, floats, strings,
    documents and sequences is its own wire form, whatever its keys:
    [serialize] never reads a tag. *)
Theorem serialize_plain_identity (x : pyval) :
  plain x = true -> serialize x = Ok x.
Proof.
  induction x using pyval_ind; try discriminate;
    try (intros _; reflexivity).
  - intros Hplain. cbn [plain] in Hplain. rewrite serialize_dict.
    assert (Hm : mapM (fun kv : string * pyval =>
                         let (k, v) := kv in v' <- serialize v ;; Ok (k, v'))
                      items = Ok items).
    { induction H as [|[k v] rest Hv Hrest IH]; [reflexivity|].
      cbn [snd] in Hv. apply andb_prop in Hplain as [Hpv Hprest].
      cbn [mapM]. rewrite (Hv Hpv). cbn [bind]. rewrite (IH Hprest).
      reflexivity. }
    rewrite Hm. reflexivity.
  - intros Hplain. cbn [plain] in Hplain. rewrite serialize_list.
    assert (Hm : mapM serialize items = Ok items).
    { induction H as [|v rest Hv Hrest IH]; [reflexivity|].
      apply andb_prop in Hplain as [Hpv Hprest].
      cbn [mapM]. rewrite (Hv Hpv), (IH Hprest). reflexivity. }
    rewrite Hm. reflexivity.
Qed.

(** The round trip of an extension value, at every depth. *)
Lemma extension_round_trip_any_depth (laws : ExtLaws) (v : pyval) :
  is_extension v = true ->
  exists wire v',
    serialize v = Ok wire
    /\ (forall depth, deserialize wire depth = Ok v')
    /\ ext_equal v v'.
Proof.
  destruct v; try discriminate; intros _.
  - destruct (EmbText_to_json_tagged e) as [d [Hd Hin]].
    exists (PDict d), (PEmbText e). cbn [serialize isinstance_scalar].
    rewrite Hd. split; [reflexivity|]. split; [|reflexivity].
    intros depth.
    rewrite deserialize_dict, (scan_keys_embtext d Hin), <- Hd.
    rewrite EmbText_from_json_to_json. reflexivity.
  - destruct (EmbImage_to_json_tagged e) as [d [Hd [Hin Hout]]].
    exists (PDict d), (PEmbImage e). cbn [serialize isinstance_scalar].
    rewrite Hd. split; [reflexivity|]. split; [|reflexivity].
    intros depth.
    rewrite deserialize_dict, (scan_keys_embimage d Hout Hin), <- Hd.
    rewrite EmbImage_from_json_to_json. reflexivity.
  - eexists _, (PObjectId o). split; [reflexivity|]. split; [|reflexivity].
    intros depth. rewrite deserialize_dict. cbn.
    rewrite ObjectId_new_str. reflexivity.
  - eexists _, (PDatetime d). split; [reflexivity|]. split; [|reflexivity].
    intros depth. rewrite deserialize_dict. cbn.
    rewrite datetime_fromisoformat_isoformat. reflexivity.
  - eexists _, (PDecimal128 d). split; [reflexivity|]. split; [|reflexivity].
    intros depth. rewrite deserialize_dict. cbn.
    rewrite Decimal128_new_str. reflexivity.
  - eexists _, (PBinary (Binary_new (Binary_bytes b))).
    split; [reflexivity|]. split.
    + intros depth. rewrite deserialize_dict. cbn.
      rewrite HexFacts.fromhex_hex. reflexivity.
    + cbn. symmetry. apply Binary_bytes_new.
  - eexists _, (PRegex r). split; [reflexivity|]. split; [|reflexivity].
    intros depth. rewrite deserialize_dict. cbn.
    rewrite Regex_new_attrs. reflexivity.
  - exists (if Code_isinstance_str then PCode c
            else PDict [("$code", PStr (Code_str c))]), (PCode c).
    cbn [serialize isinstance_scalar BSON_SERIALIZERS].
    destruct Code_isinstance_str eqn:Hstr.
    + split; [reflexivity|]. split; [|reflexivity].
      intros depth. cbn [deserialize isinstance_scalar]. rewrite Hstr.
      reflexivity.
    + split; [reflexivity|]. split; [|reflexivity].
      intros depth. rewrite deserialize_dict. cbn.
      rewrite Code_new_str. reflexivity.
  - eexists _, (PTimestamp t). split; [reflexivity|]. split; [|reflexivity].
    intros depth. rewrite deserialize_dict. cbn.
    rewrite Timestamp_new_attrs. reflexivity.
  - eexists _, PMinKey. repeat split.
  - eexists _, PMaxKey. repeat split.
Qed.

End MoreCodecFacts.

Section RoundTripFacts.
Context {T : ExtTypes} {L : ExtLib}.

(** X5. Under the contract of the external classes, every value built of
    scalars and extension values, nested in sequences and in documents
    without reserved keys, survives the round trip: [deserialize] of its
    wire form returns, at every depth, a value with the same keys in the
    same order and the same leaves (a [Binary] by its bytes). *)
Theorem nested_round_trip (laws : ExtLaws) (v : pyval) :
  round_trippable v = true ->
  exists wire v',
    serialize v = Ok wire
    /\ (forall depth, deserialize wire depth = Ok v')
    /\ same_value v v'.
Proof.
  induction v using pyval_ind;
    try (intros _;
         match goal with
         | |- exists wire v', serialize ?x = _ /\ _ /\ _ =>
             destruct (extension_round_trip_any_depth laws x eq_refl)
               as [wire [v' [Hs [Hd He]]]];
             exists wire, v'; split; [exact Hs|]; split; [exact Hd|];
             apply same_leaf; [reflexivity | exact He]
         end);
    try (intros _;
         match goal with
         | |- exists wire v', serialize ?x = _ /\ _ /\ _ =>
             exists x, x; split; [reflexivity|];
             split; [intros depth; reflexivity|];
             apply same_leaf; reflexivity
         end);
    try discriminate.
  - (* dict *)
    intros Hrt. cbn [round_trippable] in Hrt.
    assert (Hitems :
      exists witems ditems,
        mapM (fun kv : string * pyval =>
                let (k, v) := kv in v' <- serialize v ;; Ok (k, v')) items
        = Ok witems
        /\ (forall depth,
              mapM (fun kv : string * pyval =>
                      let (k, v) := kv in
                      v' <- deserialize v depth ;; Ok (k, v')) witems
              = Ok ditems)
        /\ forallb (fun kv : string * pyval => negb (is_reserved (fst kv)))
                   witems = true
        /\ Forall2 (fun kv kv' : string * pyval =>
                      fst kv = fst kv' /\ same_value (snd kv) (snd kv'))
                   items ditems).
    { induction H as [|[k v] rest Hv Hrest IH].
      - exists [], []. repeat split. constructor.
      - cbn [snd] in Hv.
        apply andb_prop in Hrt as [Hkv Hrt'].
        apply andb_prop in Hkv as [Hk Hrv].
        destruct (Hv Hrv) as [w [v' [Hs [Hd Hsame]]]].
        destruct (IH Hrt') as [witems [ditems [Hm [Hdm [Hkeys Hall]]]]].
        exists ((k, w) :: witems), ((k, v') :: ditems).
        split; [|split; [|split]].
        + cbn [mapM]. rewrite Hs. cbn [bind]. rewrite Hm. reflexivity.
        + intros depth. cbn [mapM]. rewrite Hd. cbn [bind].
          rewrite Hdm. reflexivity.
        + cbn [forallb fst]. rewrite Hk, Hkeys. reflexivity.
        + constructor; [split; [reflexivity | exact Hsame] | exact Hall]. }
    destruct Hitems as [witems [ditems [Hm [Hdm [Hkeys Hall]]]]].
    exists (PDict witems), (PDict ditems). split; [|split].
    + rewrite serialize_dict, Hm. reflexivity.
    + intros depth.
      rewrite deserialize_dict, (unreserved_keys_scan witems Hkeys).
      unfold deserialize_items. rewrite Hdm. reflexivity.
    + apply same_dict. exact Hall.
  - (* list *)
    intros Hrt. cbn [round_trippable] in Hrt.
    assert (Hitems :
      exists witems ditems,
        mapM serialize items = Ok witems
        /\ (forall depth,
              mapM (fun item => deserialize item depth) witems = Ok ditems)
        /\ Forall2 same_value items ditems).
    { induction H as [|v rest Hv Hrest IH].
      - exists [], []. repeat split. constructor.
      - apply andb_prop in Hrt as [Hrv Hrt'].
        destruct (Hv Hrv) as [w [v' [Hs [Hd Hsame]]]].
        destruct (IH Hrt') as [witems [ditems [Hm [Hdm Hall]]]].
        exists (w :: witems), (v' :: ditems). split; [|split].
        + cbn [mapM]. rewrite Hs, Hm. reflexivity.
        + intros depth. cbn [mapM]. rewrite Hd, Hdm. reflexivity.
        + constructor; assumption. }
    destruct Hitems as [witems [ditems [Hm [Hdm Hall]]]].
    exists (PList witems), (PList ditems). split; [|split].
    + rewrite serialize_list, Hm. reflexivity.
    + intros depth. cbn [deserialize]. rewrite Hdm. reflexivity.
    + apply same_list. exact Hall.
Qed.

(** X6. The payload of [$binary] is read without regard to letter case:
    the upper-case and the lower-case spelling of the hexadecimal text of
    [b] both decode to [Binary(b)]. *)
Theorem binary_decoding_ignores_case (b : Hex.bytes) (depth : Z) :
  deserialize (PDict [("$binary", PStr (Hex.upper (Hex.hex b)))]) depth
  = Ok (PBinary (Binary_new b))
  /\ deserialize (PDict [("$binary", PStr (Hex.hex b))]) depth
     = Ok (PBinary (Binary_new b)).
Proof.
  split; rewrite deserialize_dict; cbn.
  - rewrite HexFacts.fromhex_upper_hex. reflexivity.
  - rewrite HexFacts.fromhex_hex. reflexivity.
Qed.

(** X7. When [$timestamp] is the first tag of a document, a payload that
    is no dictionary makes [deserialize] raise a [TypeError], and a
    dictionary payload without [t], or with [t] and without [i], makes it
    raise the [KeyError] of the missing key: there is no fallback to the
    structural reading. *)
Theorem timestamp_payload_errors (d : dict) (depth : Z) (payload : pyval) :
  no_placeholder_key d = true ->
  first_tag_in_document d = Some "$timestamp" ->
  dict_lookup "$timestamp" d = Some payload ->
  ((forall p, payload <> PDict p) ->
   exists msg, deserialize (PDict d) depth = Raise (TypeError msg))
  /\ (forall p, payload = PDict p -> dict_lookup "t" p = None ->
                deserialize (PDict d) depth = Raise (KeyError "t"))
  /\ (forall p t, payload = PDict p -> dict_lookup "t" p = Some t ->
                  dict_lookup "i" p = None ->
                  deserialize (PDict d) depth = Raise (KeyError "i")).
Proof.
  intros Hno Hfirst Hp.
  assert (Hd : deserialize (PDict d) depth
               = variant_of_payload "$timestamp" payload
                   (dict_get "$options" (PInt 0) d)).
  { rewrite deserialize_dict.
    rewrite (scan_keys_first_tag d (map fst d) Hno) by auto.
    unfold first_tag_in_document in Hfirst. rewrite Hfirst.
    destruct (tag_decode "$timestamp" d payload eq_refl Hp) as [_ ->].
    reflexivity. }
  rewrite Hd. unfold variant_of_payload.
  cbn [String.eqb Ascii.eqb Bool.eqb]. split; [|split].
  - intros Hnd. destruct payload; try (eexists; reflexivity).
    exfalso. apply (Hnd items). reflexivity.
  - intros p -> Ht. cbn [py_getitem]. unfold dict_getitem. rewrite Ht.
    reflexivity.
  - intros p t -> Ht Hi. cbn [py_getitem]. unfold dict_getitem.
    rewrite Ht, Hi. reflexivity.
Qed.

End RoundTripFacts.

(* ================================================================== *)
(** * Further properties of the classifier and the operations *)
(* ================================================================== *)

Section MoreResponseFacts.
Context {T : ExtTypes} {L : ExtLib}.

(** X8. An error body that is a JSON object without [code] is classified
    with the default code 500, as a [ServerError]; without [message] the
    message is the default text. *)
Theorem missing_code_is_server_error (r : response) (d : dict) :
  failed r ->
  json r = Some (PDict d) ->
  dict_lookup "code" d = None ->
  handle_response r = Raise (ServerError (PInt 500) (error_message d))
  /\ (dict_lookup "message" d = None ->
      error_message d = PStr "An unknown error occurred.").
Proof.
  intros Hf Hj Hc. split.
  - rewrite (handle_response_failed r Hf).
    assert (Hcode : dict_get "code" (PInt 500) d = PInt 500)
      by (unfold dict_get; rewrite Hc; reflexivity).
    unfold response_json, error_message. rewrite Hj.
    cbn [bind py_get]. rewrite Hcode. reflexivity.
  - intros Hm. unfold error_message, dict_get. rewrite Hm. reflexivity.
Qed.

(** X9. A failed response never yields a value: [handle_response] raises,
    and never the [HTTPError] of [raise_for_status] itself.  When the body
    is not JSON, or is a JSON object whose [code] is absent or a number,
    what it raises is one of the four errors of the module. *)
Theorem failed_response_always_raises (r : response) :
  failed r ->
  exists e,
    handle_response r = Raise e
    /\ is_HTTPError e = false
    /\ ((json r = None
         \/ exists d, json r = Some (PDict d) /\ is_number (error_code d) = true)
        -> is_APIClientError e = true).
Proof.
  intros Hf. rewrite (handle_response_failed r Hf).
  unfold response_json.
  destruct (json r) as [j|] eqn:Hj.
  - destruct j;
      try (eexists; split; [reflexivity|]; split; [reflexivity|];
           intros [Hn | [body [Hd _]]]; discriminate).
    cbn [bind py_get]. fold (error_code items).
    destruct (py_eq_int (error_code items) 401).
    + eexists. split; [reflexivity|]. split; reflexivity.
    + destruct (py_ge_int (error_code items) 400) as [ge|e] eqn:Hge.
      * cbn [bind].
        destruct ge.
        -- destruct (py_lt_int (error_code items) 500) as [lt|e] eqn:Hlt.
           ++ cbn [bind].
              destruct lt; eexists; (split; [reflexivity|]);
                split; reflexivity.
           ++ cbn [bind]. unfold py_lt_int in Hlt.
              destruct (compare_int (error_code items) 500) as [[[| |]|]|] eqn:Hc;
                try discriminate.
              injection Hlt as <-.
              eexists. split; [reflexivity|]. split; [reflexivity|].
              intros [Hn | [d [Hd Hnum]]]; [discriminate|].
              injection Hd as <-.
              destruct (number_comparisons _ 500 Hnum) as [_ [b Hb]].
              unfold py_lt_int in Hb. rewrite Hc in Hb. discriminate.
        -- cbn [bind]. eexists. split; [reflexivity|]. split; reflexivity.
      * cbn [bind]. unfold py_ge_int in Hge.
        destruct (compare_int (error_code items) 400) as [[[| |]|]|] eqn:Hc;
          try discriminate.
        injection Hge as <-.
        eexists. split; [reflexivity|]. split; [reflexivity|].
        intros [Hn | [d [Hd Hnum]]]; [discriminate|].
        injection Hd as <-.
        destruct (number_comparisons _ 400 Hnum) as [[b Hb] _].
        unfold py_ge_int in Hb. rewrite Hc in Hb. discriminate.
  - eexists. split; [reflexivity|]. split; reflexivity.
Qed.

(** X10. On a response that [raise_for_status] lets pass, a body that is
    not JSON raises the [JSONDecodeError] of [response.json()] as it is: the
    classifier does not run and no [APIClientError] wraps it. *)
Theorem success_body_not_json (r : response) :
  ~ failed r ->
  json r = None ->
  handle_response r = Raise JSONDecodeError.
Proof.
  intros Hok Hj. unfold handle_response, response_json.
  rewrite (raise_for_status_passed r Hok), Hj. reflexivity.
Qed.

End MoreResponseFacts.

Section MoreFacadeFacts.
Context {T : ExtTypes} {L : ExtLib}.
Variable requests_send : request -> result response.
Variable self : Collection.

(** X11. No operation swallows a failure: when the transport raises, or
    answers with a failed response on which the classifier raises, each of
    [insert], [update], [delete], [find], [query] and [drop] raises that
    same exception. *)
Theorem operations_propagate_failures (e : exn) :
  (forall documents rq,
      insert_request self documents = Ok rq ->
      fails_with requests_send rq e ->
      insert requests_send self documents = Raise e)
  /\ (forall filter update_doc upsert rq,
        update_request self filter update_doc upsert = Ok rq ->
        fails_with requests_send rq e ->
        update requests_send self filter update_doc upsert = Raise e)
  /\ (forall filter rq,
        delete_request self filter = Ok rq ->
        fails_with requests_send rq e ->
        delete requests_send self filter = Raise e)
  /\ (forall filter projection sort limit skip rq,
        find_request self filter projection sort limit skip = Ok rq ->
        fails_with requests_send rq e ->
        find requests_send self filter projection sort limit skip = Raise e)
  /\ (forall text filter projection emb_model top_k include_values,
        fails_with requests_send
          (query_request self text filter projection emb_model top_k
                         include_values) e ->
        query requests_send self text filter projection emb_model top_k
              include_values = Raise e)
  /\ (fails_with requests_send (drop_request self) e ->
      drop requests_send self = Raise e).
Proof.
  unfold fails_with.
  repeat split.
  - intros documents rq Hrq [Hs | [r [Hs [Hf Hr]]]];
      unfold insert; rewrite Hrq; cbn [bind]; rewrite Hs; cbn [bind];
      [reflexivity | exact Hr].
  - intros filter update_doc upsert rq Hrq [Hs | [r [Hs [Hf Hr]]]];
      unfold update; rewrite Hrq; cbn [bind]; rewrite Hs; cbn [bind];
      [reflexivity | exact Hr].
  - intros filter rq Hrq [Hs | [r [Hs [Hf Hr]]]];
      unfold delete; rewrite Hrq; cbn [bind]; rewrite Hs; cbn [bind];
      [reflexivity | exact Hr].
  - intros filter projection sort limit skip rq Hrq [Hs | [r [Hs [Hf Hr]]]];
      unfold find; rewrite Hrq; cbn [bind]; rewrite Hs; cbn [bind];
      [reflexivity | rewrite Hr; reflexivity].
  - intros text filter projection emb_model top_k include_values
           [Hs | [r [Hs [Hf Hr]]]];
      unfold query; rewrite Hs; cbn [bind];
      [reflexivity | rewrite Hr; reflexivity].
  - intros [Hs | [r [Hs [Hf Hr]]]]; unfold drop; rewrite Hs; cbn [bind];
      [reflexivity|].
    assert (Hne : (status_code r =? 204) = false)
      by (apply Z.eqb_neq; unfold failed in Hf; lia).
    rewrite Hne, Hr. reflexivity.
Qed.

(** X12. [find] builds its request exactly when its filter is supported,
    and the body then always has the five keys [filter], [projection],
    [sort], [limit], [skip], in this order: an optional parameter left at
    [None] is sent as null, unlike in [query]. *)
Theorem find_sends_every_key (filter projection sort limit skip : pyval) :
  ((exists rq, find_request self filter projection sort limit skip = Ok rq)
   <-> supported filter = true)
  /\ (forall rq,
        find_request self filter projection sort limit skip = Ok rq ->
        map fst (request_data rq)
        = ["filter"; "projection"; "sort"; "limit"; "skip"]
        /\ sends_as_given rq "projection" projection
        /\ sends_as_given rq "sort" sort
        /\ sends_as_given rq "limit" limit
        /\ sends_as_given rq "skip" skip).
Proof.
  split.
  - unfold find_request. pose proof (serialize_supported filter) as H.
    destruct (supported filter).
    + destruct H as [w ->]. cbn [bind]. split; [reflexivity | eauto].
    + destruct H as [u [_ ->]]. cbn [bind].
      split; [intros [rq Hrq]; discriminate | discriminate].
  - intros rq. unfold find_request.
    destruct (serialize filter); cbn [bind]; [|discriminate].
    intros [= <-]. repeat split.
Qed.

(** X13. [insert] is all or nothing: when every document is supported the
    body holds the wire form of each document, in the order given; when
    one is not, no request is built and the unsupported-type [TypeError]
    is raised, whatever the transport would answer. *)
Theorem insert_all_or_nothing (documents : list pyval) :
  (supported (PList documents) = true ->
   exists rq wires,
     insert_request self documents = Ok rq
     /\ request_data rq = [("documents", PList wires)]
     /\ Forall2 (fun d w => serialize d = Ok w) documents wires)
  /\ (supported (PList documents) = false ->
      exists u,
        recognized u = false
        /\ insert_request self documents = Raise (unsupported_error u)
        /\ insert requests_send self documents = Raise (unsupported_error u)).
Proof.
  pose proof (serialize_supported (PList documents)) as H.
  rewrite serialize_list in H. split; intros Hs; rewrite Hs in H.
  - destruct H as [w Hw].
    destruct (mapM serialize documents) as [wires|] eqn:Hm; [|discriminate].
    eexists _, wires. unfold insert_request. rewrite Hm. cbn [bind].
    repeat split. exact (mapM_Forall2 serialize documents wires Hm).
  - destruct H as [u [Hu Hr]]. exists u.
    destruct (mapM serialize documents) as [wires|e] eqn:Hm; [discriminate|].
    cbn [bind] in Hr. injection Hr as ->.
    unfold insert, insert_request. rewrite Hm. repeat split. exact Hu.
Qed.

(** X14. On a success body, [find] returns whatever is bound to [docs] and
    [query] whatever is bound to [matches], without looking at it; when the
    deserialized body is no dictionary, both raise an [AttributeError]. *)
Theorem result_field_extraction (r : response) (j v : pyval) :
  ~ failed r ->
  json r = Some j ->
  deserialize j 0 = Ok v ->
  (forall filter projection sort limit skip rq,
      find_request self filter projection sort limit skip = Ok rq ->
      requests_send rq = Ok r ->
      (forall d x, v = PDict d -> dict_lookup "docs" d = Some x ->
                   find requests_send self filter projection sort limit skip
                   = Ok x)
      /\ ((forall d, v <> PDict d) ->
          exists msg,
            find requests_send self filter projection sort limit skip
            = Raise (AttributeError msg)))
  /\ (forall text filter projection emb_model top_k include_values,
        requests_send
          (query_request self text filter projection emb_model top_k
                         include_values) = Ok r ->
        (forall d x, v = PDict d -> dict_lookup "matches" d = Some x ->
                     query requests_send self text filter projection emb_model
                           top_k include_values = Ok x)
        /\ ((forall d, v <> PDict d) ->
            exists msg,
              query requests_send self text filter projection emb_model
                    top_k include_values = Raise (AttributeError msg))).
Proof.
  intros Hok Hj Hd.
  pose proof (handle_response_success r j v Hok Hj Hd) as Hr.
  split.
  - intros filter projection sort limit skip rq Hrq Hs.
    unfold find. rewrite Hrq. cbn [bind]. rewrite Hs. cbn [bind]. rewrite Hr.
    cbn [bind]. split.
    + intros d x -> Hx. cbn [py_get]. unfold dict_get. rewrite Hx. reflexivity.
    + intros Hnd. destruct v; try (eexists; reflexivity).
      exfalso. apply (Hnd items). reflexivity.
  - intros text filter projection emb_model top_k include_values Hs.
    unfold query. rewrite Hs. cbn [bind]. rewrite Hr. cbn [bind]. split.
    + intros d x -> Hx. cbn [py_get]. unfold dict_get. rewrite Hx. reflexivity.
    + intros Hnd. destruct v; try (eexists; reflexivity).
      exfalso. apply (Hnd items). reflexivity.
Qed.

(** X15. [drop] never returns the body: on every response that
    [raise_for_status] lets pass and whose body deserializes it returns
    [None]; on such a response with a status other than 204 and a body
    that is not JSON it raises [JSONDecodeError]. *)
Theorem drop_discards_body (r : response) :
  requests_send (drop_request self) = Ok r ->
  ~ failed r ->
  (forall j v, json r = Some j -> deserialize j 0 = Ok v ->
               drop requests_send self = Ok PNone)
  /\ (status_code r <> 204 -> json r = None ->
      drop requests_send self = Raise JSONDecodeError).
Proof.
  intros Hs Hok. unfold drop. rewrite Hs. cbn [bind]. split.
  - intros j v Hj Hd. rewrite (handle_response_success r j v Hok Hj Hd).
    destruct (status_code r =? 204); reflexivity.
  - intros Hne Hj. apply Z.eqb_neq in Hne. rewrite Hne.
    unfold handle_response, response_json.
    rewrite (raise_for_status_passed r Hok), Hj. reflexivity.
Qed.

(** X16. The keys of the body of [query] are distinct and come in the
    fixed order [query], [filter], [projection], [emb_model], [top_k],
    [include_values], those of the unset parameters left out. *)
Theorem query_body_keys
    (text filter projection emb_model top_k include_values : pyval) :
  let data := query_data text filter projection emb_model top_k
                         include_values in
  map fst data
  = query_keys filter projection emb_model top_k include_values
  /\ NoDup (map fst data).
Proof.
  cbv zeta. unfold query_data, query_keys.
  destruct (is_not_None filter), (is_not_None projection),
    (is_not_None emb_model), (is_not_None top_k),
    (is_not_None include_values);
    (split; [reflexivity|]);
    cbn [dict_setitem String.eqb Ascii.eqb Bool.eqb map fst];
    repeat (constructor; [cbn [In]; intuition discriminate|]);
    constructor.
Qed.

End MoreFacadeFacts.

(* ================================================================== *)
(** * Properties of the client *)
(* ================================================================== *)

Section ClientFacts.
Context {T : ExtTypes}.
Import Client.

Lemma rstrip_ends (c : ascii) (s : string) :
  ends_with c (rstrip c s) = false.
Proof.
  induction s as [|x rest IH]; [reflexivity|].
  cbn [rstrip]. destruct (rstrip c rest) as [|y r].
  - destruct (Ascii.eqb x c) eqn:E; [reflexivity|]. cbn. exact E.
  - exact IH.
Qed.

Lemma rstrip_decompose (c : ascii) (s : string) :
  exists n, s = rstrip c s ++ replicate c n.
Proof.
  induction s as [|x rest [n IH]]; [exists 0%nat; reflexivity|].
  cbn [rstrip]. destruct (rstrip c rest) as [|y r].
  - destruct (Ascii.eqb_spec x c) as [->|Hne].
    + exists (S n). cbn in *. now rewrite <- IH.
    + exists n. cbn in *. now rewrite <- IH.
  - exists n. cbn in *. now rewrite <- IH.
Qed.

Lemma rstrip_fixed (c : ascii) (s : string) :
  ends_with c s = false -> rstrip c s = s.
Proof.
  induction s as [|x rest IH]; [reflexivity|].
  cbn [rstrip ends_with]. destruct rest as [|y r].
  - intros ->. reflexivity.
  - intros H. rewrite (IH H). reflexivity.
Qed.

Lemma ends_with_app (c : ascii) (a b : string) :
  b <> EmptyString -> ends_with c (a ++ b) = ends_with c b.
Proof.
  intros Hb. induction a as [|x a IH]; [reflexivity|].
  cbn [append ends_with]. rewrite <- IH.
  destruct (a ++ b) as [|y r] eqn:E; [|reflexivity].
  destruct a; destruct b; try discriminate. contradiction.
Qed.

(** X17. The client is built exactly when both [CAPYDB_PROJECT_ID] and
    [CAPYDB_API_KEY] are set to non-empty strings (an unset and an empty
    variable are alike); otherwise [__init__] raises a [ValueError], about
    the project id when that is missing, and about the key only when the
    project id is there.  The client built carries the two values and the
    bearer header of the key. *)
Theorem init_requires_both (env : environ) :
  let pid := getenv env "CAPYDB_PROJECT_ID" "" in
  let key := getenv env "CAPYDB_API_KEY" "" in
  (pid = "" -> init env = Raise (ValueError missing_project_id))
  /\ (pid <> "" -> key = "" -> init env = Raise (ValueError missing_api_key))
  /\ (pid <> "" -> key <> "" -> exists c, init env = Ok c)
  /\ (forall c, init env = Ok c ->
                pid <> "" /\ key <> ""
                /\ Client.project_id c = pid
                /\ Client.api_key c = key
                /\ session_headers c = [("Authorization", "Bearer " ++ key)]).
Proof.
  cbv zeta. unfold init.
  destruct (getenv env "CAPYDB_PROJECT_ID" "") as [|a pid] eqn:Hp;
    cbn [is_empty].
  - repeat split; try congruence; intros; discriminate.
  - destruct (getenv env "CAPYDB_API_KEY" "") as [|b key] eqn:Hk;
      cbn [is_empty].
    + repeat split; try congruence; intros; discriminate.
    + split; [discriminate|]. split; [congruence|].
      split; [eauto|].
      intros c [= <-]. cbn. repeat split; discriminate.
Qed.

(** X18. The base url of a client never ends with a slash: the text
    [https://api.capydb.com/] followed by the project id is the base url
    followed by some number of slashes (the whole run of slashes at the end
    of that text is removed, the slash after the host too when the project
    id is made of slashes only), and the base url is exactly that text when
    the project id ends with no slash. *)
Theorem base_url_has_no_trailing_slash (env : environ) (c : CapyDB) :
  init env = Ok c ->
  ends_with "/" (base_url c) = false
  /\ (exists n, "https://api.capydb.com/" ++ Client.project_id c
                = base_url c ++ replicate "/" n)
  /\ (ends_with "/" (Client.project_id c) = false ->
      base_url c = "https://api.capydb.com/" ++ Client.project_id c).
Proof.
  unfold init.
  destruct (getenv env "CAPYDB_PROJECT_ID" "") as [|a pid] eqn:Hp;
    cbn [is_empty]; [discriminate|].
  destruct (getenv env "CAPYDB_API_KEY" "") as [|b key] eqn:Hk;
    cbn [is_empty]; [discriminate|].
  intros H.
  assert (Hc : base_url c
               = rstrip "/" ("https://api.capydb.com/" ++ Client.project_id c)
               /\ Client.project_id c = String a pid).
  { injection H as <-. split; reflexivity. }
  destruct Hc as [-> Hpid]. split; [|split].
  - apply rstrip_ends.
  - apply rstrip_decompose.
  - intros He. apply rstrip_fixed.
    rewrite ends_with_app by (rewrite Hpid; discriminate). exact He.
Qed.

End ClientFacts.

(* ================================================================== *)
(** * The further properties on the small instance *)
(* ================================================================== *)

Module MoreExamples.
Import Ref Samples.

Lemma serialize_returns_iff_supported_witness :
  serialize list_with_bytes = Raise (unsupported_error (PObject "bytes"))
  /\ exists u, recognized u = false
               /\ unsupported_error (PObject "bytes") = unsupported_error u.
Proof.
  split; [reflexivity|].
  apply (proj2 (serialize_returns_iff_supported list_with_bytes)).
  reflexivity.
Defined.

Lemma serialize_keeps_shape_witness :
  exists wire items',
    serialize profile = Ok wire
    /\ wire = PDict items'
    /\ map fst items' = ["_id"; "avatar"; "bio"; "tags"].
Proof.
  eexists.
  destruct (proj1 serialize_keeps_shape _ _
              (eq_refl : serialize profile = Ok _)) as [items' [Hw Hk]].
  exists items'. split; [reflexivity|]. split; [exact Hw | exact Hk].
Defined.

Lemma serialize_plain_identity_witness :
  plain tagged_plain = true /\ serialize tagged_plain = Ok tagged_plain.
Proof.
  split; [reflexivity|].
  apply (serialize_plain_identity tagged_plain). reflexivity.
Defined.

Lemma nested_round_trip_witness :
  round_trippable profile = true
  /\ exists wire v',
       serialize profile = Ok wire
       /\ (forall depth, deserialize wire depth = Ok v')
       /\ same_value profile v'.
Proof.
  split; [reflexivity|].
  apply (nested_round_trip Examples.ref_laws profile). reflexivity.
Defined.

(** The document comes back with its keys in order; the [Binary] has its
    bytes and the default subtype. *)
Example nested_round_trip_run :
  (wire <- serialize profile ;; deserialize wire 0) = Ok profile_back.
Proof. reflexivity. Qed.

Lemma timestamp_payload_errors_witness :
  no_placeholder_key half_timestamp = true
  /\ deserialize (PDict half_timestamp) 0 = Raise (KeyError "i").
Proof.
  split; [reflexivity|].
  apply (proj2 (proj2 (timestamp_payload_errors half_timestamp 0
                         (PDict [("t", PInt 1)]) eq_refl eq_refl eq_refl))
           [("t", PInt 1)] (PInt 1));
    reflexivity.
Defined.

Lemma missing_code_is_server_error_witness :
  failed error_without_code
  /\ handle_response error_without_code
     = Raise (ServerError (PInt 500) (error_message [])).
Proof.
  assert (Hf : failed error_without_code) by (unfold failed; cbn; lia).
  split; [exact Hf|].
  apply (proj1 (missing_code_is_server_error error_without_code [] Hf
                  eq_refl eq_refl)).
Defined.

Lemma failed_response_always_raises_witness :
  failed float_code
  /\ exists e, handle_response float_code = Raise e
               /\ is_HTTPError e = false
               /\ is_APIClientError e = true.
Proof.
  assert (Hf : failed float_code) by (unfold failed; cbn; lia).
  split; [exact Hf|].
  destruct (failed_response_always_raises float_code Hf) as [e [He [Hh Ha]]].
  exists e. split; [exact He|]. split; [exact Hh|].
  apply Ha. right. eexists. split; reflexivity.
Defined.

(** A code sent as the float 404.0 is classified like the integer. *)
Example float_code_run :
  handle_response float_code
  = Raise (ClientRequestError (PFloat (S754_finite false 404 0))
                              (PStr "An unknown error occurred.")).
Proof. reflexivity. Qed.

Lemma success_body_not_json_witness :
  ~ failed ok_not_json /\ handle_response ok_not_json = Raise JSONDecodeError.
Proof.
  assert (Hok : ~ failed ok_not_json) by (unfold failed; cbn; lia).
  split; [exact Hok|].
  apply (success_body_not_json ok_not_json Hok). reflexivity.
Defined.

Lemma operations_propagate_failures_witness :
  fails_with refuse (drop_request coll) (OtherError "ConnectionError")
  /\ drop refuse coll = Raise (OtherError "ConnectionError").
Proof.
  assert (H : fails_with refuse (drop_request coll)
                (OtherError "ConnectionError")) by (left; reflexivity).
  split; [exact H|].
  apply (proj2 (proj2 (proj2 (proj2 (proj2
           (operations_propagate_failures refuse coll
              (OtherError "ConnectionError"))))))).
  exact H.
Defined.

Lemma find_sends_every_key_witness :
  exists rq,
    find_request coll (PDict []) PNone PNone PNone PNone = Ok rq
    /\ map fst (request_data rq)
       = ["filter"; "projection"; "sort"; "limit"; "skip"]
    /\ sends_as_given rq "projection" PNone
    /\ sends_as_given rq "sort" PNone
    /\ sends_as_given rq "limit" PNone
    /\ sends_as_given rq "skip" PNone.
Proof.
  eexists. split; [reflexivity|].
  apply (proj2 (find_sends_every_key coll (PDict []) PNone PNone PNone PNone)).
  reflexivity.
Defined.

Lemma insert_all_or_nothing_witness :
  supported (PList [PDict []; PObject "bytes"]) = false
  /\ exists u,
       recognized u = false
       /\ insert_request coll [PDict []; PObject "bytes"]
          = Raise (unsupported_error u)
       /\ insert (answer ok_empty) coll [PDict []; PObject "bytes"]
          = Raise (unsupported_error u).
Proof.
  split; [reflexivity|].
  apply (proj2 (insert_all_or_nothing (answer ok_empty) coll
                  [PDict []; PObject "bytes"])).
  reflexivity.
Defined.

Lemma result_field_extraction_witness :
  ~ failed ok_docs
  /\ find (answer ok_docs) coll (PDict []) PNone PNone PNone PNone
     = Ok (PList [PDict [("a", PInt 1)]]).
Proof.
  assert (Hok : ~ failed ok_docs) by (unfold failed; cbn; lia).
  split; [exact Hok|].
  apply (proj1 (proj1 (result_field_extraction (answer ok_docs) coll ok_docs
                         _ _ Hok eq_refl eq_refl)
                  (PDict []) PNone PNone PNone PNone _ eq_refl eq_refl)
           [("docs", PList [PDict [("a", PInt 1)]])]);
    reflexivity.
Defined.

(** A success body that is a JSON list has no [.get]. *)
Example find_on_list_body_run :
  find (answer ok_list) coll (PDict []) PNone PNone PNone PNone
  = Raise (AttributeError "<class 'list'> has no attribute 'get'").
Proof. reflexivity. Qed.

Lemma drop_discards_body_witness :
  ~ failed ok_docs /\ drop (answer ok_docs) coll = Ok PNone.
Proof.
  assert (Hok : ~ failed ok_docs) by (unfold failed; cbn; lia).
  split; [exact Hok|].
  apply (proj1 (drop_discards_body (answer ok_docs) coll ok_docs
                  eq_refl Hok) _ _ eq_refl eq_refl).
Defined.

Lemma init_requires_both_witness :
  Client.getenv env_no_key "CAPYDB_PROJECT_ID" "" <> ""
  /\ Client.getenv env_no_key "CAPYDB_API_KEY" "" = ""
  /\ Client.init env_no_key = Raise (ValueError Client.missing_api_key).
Proof.
  split; [discriminate|]. split; [reflexivity|].
  apply (proj1 (proj2 (init_requires_both env_no_key)));
    [discriminate | reflexivity].
Defined.

Lemma base_url_has_no_trailing_slash_witness :
  exists c,
    Client.init env_full = Ok c
    /\ Client.project_id c = "proj/"
    /\ Client.base_url c = "https://api.capydb.com/proj"
    /\ Client.ends_with "/" (Client.base_url c) = false.
Proof.
  eexists. split; [reflexivity|]. split; [reflexivity|].
  split; [reflexivity|].
  apply (proj1 (base_url_has_no_trailing_slash env_full _ eq_refl)).
Defined.

(** With the project id [/] the slash after the host goes too. *)
Example base_url_of_slash_run :
  exists c,
    Client.init env_slash = Ok c
    /\ Client.base_url c = "https://api.capydb.com"
    /\ "https://api.capydb.com/" ++ Client.project_id c
       = Client.base_url c ++ Client.replicate "/" 2.
Proof. eexists. repeat split. Qed.

End MoreExamples.
